(** * Bank churn dashboard: a shallow embedding of [streamlit_app.py]

    The dashboard is one Streamlit script that is re-run from top to bottom on
    every interaction.  A run is modelled as a computation that appends to a
    trace of observable events (what is put on the page, and every call made
    through [requests]) and that may raise a Python exception.

    - the network is an oracle ([World]) queried by [requests_get] and
      [requests_post]; an oracle answer is a response or a raised exception;
    - a pandas [DataFrame] is an ordered list of named columns over row
      labels: the default labels [0 .. nrows-1], which [pd.DataFrame] gives a
      list and [pd.read_csv] gives a rectangular CSV file, or labels of its
      own, which [pd.read_csv] takes from the first field of each row when
      the rows have one field more than the header;
    - Python, pandas and Streamlit operations whose result rests on dynamic
      typing, on floating-point formatting, on dtype inference, on a join
      over row labels or on what Streamlit accepts to show are fields of
      [PyRuntime] and stay abstract; that [st.dataframe] raises on column
      names that repeat is part of the model. *)

From Stdlib Require Import ZArith List String Ascii Bool Lia PrimFloat DecimalString.
Import ListNotations.
Local Open Scope string_scope.
Local Open Scope list_scope.
Local Open Scope Z_scope.

(** String concatenation, as [+] and f-strings do it. *)
Infix "+++" := String.append (right associativity, at level 60).

(** ** Python values *)

(** JSON documents, table cells and widget values.  pandas' missing value NaN
    is the float [nan]. *)
#[local] Set Warnings "-register-all,-inexact-float".
Inductive value : Type :=
| VNone
| VBool (b : bool)
| VInt (z : Z)
| VFloat (f : float)
| VStr (s : string)
| VList (l : list value)
| VDict (d : list (string * value)).

Definition NaN : value := VFloat nan.

(** A raised exception: its class and [str(e)]. *)
Record exn : Type := Exn { exn_class : string; exn_str : string }.

Record Response : Type := mkResponse {
  status_code : Z;
  text : string;
  json : exn + value          (* [response.json()] parses lazily and may raise *)
}.

(** The Prediction Service as seen through [requests]. *)
Record World : Type := mkWorld {
  get_oracle : string -> exn + Response;
  post_oracle : string -> option value -> exn + Response
}.

(** ** Data frames *)

Record DataFrame : Type := Frame {
  nrows : nat;
  cols : list (string * list value);
  labels : option (list value)  (* row labels; [None]: the default 0 .. nrows-1 *)
}.

(** A frame over the default row labels. *)
Definition mkDataFrame (n : nat) (cs : list (string * list value)) : DataFrame :=
  Frame n cs None.

Definition columns (df : DataFrame) : list string := map fst (cols df).

(** [c in df.columns] *)
Definition has_col (df : DataFrame) (c : string) : bool :=
  existsb (String.eqb c) (columns df).

(** [df[c]] for a column that is present. *)
Fixpoint lookup {A : Type} (k : string) (l : list (string * A)) : option A :=
  match l with
  | [] => None
  | (k', a) :: l' => if String.eqb k k' then Some a else lookup k l'
  end.

Definition getcol (df : DataFrame) (c : string) : list value :=
  match lookup c (cols df) with
  | Some v => v
  | None => []
  end.

Definition overwrite (c : string) (v : list value) (kv : string * list value)
  : string * list value :=
  if String.eqb (fst kv) c then (c, v) else kv.

(** [df[c] = v]: overwrite the column in place when it exists, else append. *)
Definition setitem (df : DataFrame) (c : string) (v : list value) : DataFrame :=
  if has_col df c
  then Frame (nrows df) (map (overwrite c v) (cols df)) (labels df)
  else Frame (nrows df) (cols df ++ [(c, v)]) (labels df).

(** [df[names]] for names that are all present. *)
Definition select (df : DataFrame) (names : list string) : DataFrame :=
  Frame (nrows df) (map (fun c => (c, getcol df c)) names) (labels df).

(** The cell of a column at row [i]. *)
Definition cell (col : list value) (i : nat) : value := nth i col NaN.

(** Row [i] of a frame, one cell per column, in column order. *)
Definition row (df : DataFrame) (i : nat) : list value :=
  map (fun kv => cell (snd kv) i) (cols df).

(** [df.to_dict(orient="records")] *)
Definition to_dict_records (df : DataFrame) : list value :=
  map (fun i => VDict (map (fun kv => (fst kv, cell (snd kv) i)) (cols df)))
      (seq 0 (nrows df)).

(** [df.head()] *)
Definition head (df : DataFrame) : DataFrame :=
  Frame (Nat.min 5 (nrows df))
        (map (fun kv => (fst kv, firstn 5 (snd kv))) (cols df))
        (option_map (firstn 5) (labels df)).

(** [(series == s).astype(int)] *)
Definition eq_str (v : value) (s : string) : bool :=
  match v with
  | VStr t => String.eqb t s
  | _ => false
  end.

Definition astype_int (b : bool) : value := VInt (if b then 1 else 0).

Definition indicator (col : list value) (s : string) : list value :=
  map (fun v => astype_int (eq_str v s)) col.

(** A column with the cell of row [i] replaced. *)
Fixpoint update_nth (i : nat) (v : value) (col : list value) {struct col}
  : list value :=
  match col with
  | [] => []
  | x :: col' =>
      match i with
      | O => v :: col'
      | S i' => x :: update_nth i' v col'
      end
  end.

(** The table [df] with the cell of column [c] at row [i] replaced by [v]. *)
Definition with_cell (df : DataFrame) (c : string) (i : nat) (v : value)
  : DataFrame :=
  setitem df c (update_nth i v (getcol df c)).

(** No name occurs twice. *)
Fixpoint distinct (names : list string) : bool :=
  match names with
  | [] => true
  | c :: names' => negb (existsb (String.eqb c) names') && distinct names'
  end.

(** Every column holds one cell per row. *)
Definition wf_df (df : DataFrame) : Prop :=
  Forall (fun kv => List.length (snd kv) = nrows df) (cols df).

(** ** Events and the run monad *)

Inductive event : Type :=
| Title (s : string)
| Header (s : string)
| Subheader (s : string)
| Write (s : string)
| SidebarHeader (s : string)
| SidebarSuccess (s : string)
| SidebarError (s : string)
| Success (s : string)
| Error (s : string)
| Info (s : string)
| Warning (s : string)
| Metric (label : string) (v : value)
| Dataframe (df : DataFrame)
  (* [data] is [df.to_csv(index=False).encode('utf-8')] of the frame recorded *)
| DownloadButton (label : string) (data : DataFrame) (file_name mime : string)
| Get (url : string)
| Post (url : string) (body : option value).

Definition M (A : Type) : Type := list event * (exn + A).

Definition ret {A : Type} (a : A) : M A := ([], inr a).

Definition bind {A B : Type} (m : M A) (k : A -> M B) : M B :=
  match m with
  | (t, inl e) => (t, inl e)
  | (t, inr a) => let (t', r) := k a in (t ++ t', r)
  end.

Definition emit (e : event) : M unit := ([e], inr tt).

Definition lift {A : Type} (r : exn + A) : M A := ([], r).

(** [try: m  except Exception as e: h e] *)
Definition try_except {A : Type} (m : M A) (h : exn -> M A) : M A :=
  match m with
  | (t, inl e) => let (t', r) := h e in (t ++ t', r)
  | (t, inr a) => (t, inr a)
  end.

Definition trace {A : Type} (m : M A) : list event := fst m.
Definition outcome {A : Type} (m : M A) : exn + A := snd m.

Notation "x <- m ;; k" := (bind m (fun x => k))
  (at level 61, m at next level, right associativity).
Notation "m ;; k" := (bind m (fun _ => k))
  (at level 61, right associativity).

(** The calls made through [requests], in order. *)
Definition is_call (e : event) : bool :=
  match e with
  | Get _ | Post _ _ => true
  | _ => false
  end.

Definition network_calls (t : list event) : list event := filter is_call t.

(** [requests.get(url)] and [requests.post(url, json=body)] *)
Definition requests_get (w : World) (url : string) : M Response :=
  ([Get url], get_oracle w url).

Definition requests_post (w : World) (url : string) (body : option value)
  : M Response :=
  ([Post url body], post_oracle w url body).

(** ** Text *)

Definition str_Z (z : Z) : string := NilZero.string_of_int (Z.to_int z).
Definition str_nat (n : nat) : string := NilZero.string_of_uint (Nat.to_uint n).

(** [repr] of a list of names free of quotes, backslashes and control
    characters, which is all it is applied to here: [missing] is a sublist of
    [required_cols]. *)
Definition repr_str (s : string) : string := "'" +++ s +++ "'".

Definition repr_list (l : list string) : string :=
  "[" +++ String.concat ", " (map repr_str l) +++ "]".

(** ** Operations left to the Python runtime

    What these compute depends on dynamic typing, on floating-point formatting
    or on pandas' dtype inference; none of it is decided by the script. *)
Class PyRuntime : Type := {
  (** the text of [f"{v * 100:.2f}%"], or what evaluating it raises *)
  format_pct : value -> exn + string;
  (** [str] of a float, as an f-string inserts it *)
  str_float : float -> string;
  (** what [v[key]] raises for a [v] that is not a dict *)
  getitem_error : value -> string -> exn;
  (** what [v > 0] raises for a [v] that is not a number *)
  compare_error : value -> exn;
  (** what [st.metric] raises for a value it does not accept *)
  metric_error : value -> exn;
  (** [len(v)] for a [v] that is neither a list nor a dict *)
  len_other : value -> exn + nat;
  (** [pd.DataFrame(v)] for a [v] that is not a list of dicts *)
  DataFrame_other : value -> exn + DataFrame;
  (** [infer_cast col v]: the cell [v] under the dtype pandas infers for the
      column [col] built from Python objects *)
  infer_cast : list value -> value -> value;
  (** [nan_cast col v]: the cell [v] under the dtype the column [col] takes
      once NaN is added to it *)
  nan_cast : list value -> value -> value;
  (** [pd.concat([a, b], axis=1)] when a frame has row labels of its own: the
      outer join on the labels, or what it raises for labels that repeat *)
  concat_on_labels : DataFrame -> DataFrame -> exn + DataFrame;
  (** what [st.dataframe] raises for a frame whose column names repeat *)
  duplicate_columns_error : DataFrame -> exn;
  (** what [st.dataframe] raises for a frame with distinct column names that
      it cannot show, if anything *)
  dataframe_error : DataFrame -> option exn
}.

(** A column of integers keeps its cells; a cell that is neither an integer
    nor None keeps its value under every dtype. *)
Definition is_int (v : value) : bool :=
  match v with
  | VInt _ => true
  | _ => false
  end.

Definition keeps_values (py : PyRuntime) : Prop :=
  (forall col v, is_int v = false -> v <> VNone -> infer_cast col v = v) /\
  (forall col z, forallb is_int col = true -> infer_cast col (VInt z) = VInt z).





(** The ten fields of a record the service accepts. *)
Definition required_cols : list string :=
  ["CreditScore"; "Age"; "Tenure"; "Balance"; "NumOfProducts";
   "HasCrCard"; "IsActiveMember"; "EstimatedSalary";
   "Geography_Germany"; "Geography_Spain"].

(** The choices of the Geography select box. *)
Definition geography_options : list string := ["France"; "Germany"; "Spain"].

(** The widgets of the single-prediction tab. *)
Record SingleInputs : Type := mkSingleInputs {
  credit_score : Z;
  age : Z;
  tenure : Z;
  balance : float;
  estimated_salary : float;
  num_of_products : Z;
  has_cr_card : Z;
  is_active_member : Z;
  geography : string
}.

(** What one run of the script reads from the page. *)
Record Ui : Type := mkUi {
  api_url : string;
  inputs : SingleInputs;
  predict_clicked : bool;
  (* the file of the uploader, as [pd.read_csv] returns it or raises *)
  uploaded_file : option (exn + DataFrame);
  predict_batch_clicked : bool;
  threshold : float;
  check_drift_clicked : bool
}.

(** ** Single prediction: the Geography flags and the payload *)

Definition geo_germany (geography : string) : Z :=
  if String.eqb geography "Germany" then 1 else 0.

Definition geo_spain (geography : string) : Z :=
  if String.eqb geography "Spain" then 1 else 0.

Definition payload (i : SingleInputs) : list (string * value) :=
  [("CreditScore", VInt (credit_score i));
   ("Age", VInt (age i));
   ("Tenure", VInt (tenure i));
   ("Balance", VFloat (balance i));
   ("NumOfProducts", VInt (num_of_products i));
   ("HasCrCard", VInt (has_cr_card i));
   ("IsActiveMember", VInt (is_active_member i));
   ("EstimatedSalary", VFloat (estimated_salary i));
   ("Geography_Germany", VInt (geo_germany (geography i)));
   ("Geography_Spain", VInt (geo_spain (geography i)))].

(** ** Batch prediction: local preparation of the uploaded table *)

(** Lines 119-124: the copy of the upload with the two indicator columns. *)
Definition process (df : DataFrame) : DataFrame :=
  if has_col df "Geography" then
    let df1 := setitem df "Geography_Germany"
                 (indicator (getcol df "Geography") "Germany") in
    setitem df1 "Geography_Spain"
      (indicator (getcol df1 "Geography") "Spain")
  else df.

(** Line 131 *)
Definition missing_cols (df_processed : DataFrame) : list string :=
  filter (fun c => negb (has_col df_processed c)) required_cols.

(** Line 137 *)
Definition records (df_processed : DataFrame) : list value :=
  to_dict_records (select df_processed required_cols).

(** The record of row [i]: the required fields, in their order. *)
Definition record_at (df_processed : DataFrame) (i : nat)
  : list (string * value) :=
  map (fun c => (c, cell (getcol df_processed c) i)) required_cols.

Section Dashboard.

Context {py : PyRuntime}.

(** ** Dynamic operations on values *)

(** [v[key]] with a literal key. *)
Definition getitem (v : value) (key : string) : exn + value :=
  match v with
  | VDict d =>
      match lookup key d with
      | Some x => inr x
      | None => inl (Exn "KeyError" (repr_str key))
      end
  | _ => inl (getitem_error v key)
  end.

(** [v == 1] *)
Definition eq_one (v : value) : bool :=
  match v with
  | VBool b => b
  | VInt z => z =? 1
  | VFloat f => PrimFloat.eqb f 1%float
  | _ => false
  end.

(** [v > 0] *)
Definition gt_zero (v : value) : exn + bool :=
  match v with
  | VBool b => inr b
  | VInt z => inr (0 <? z)
  | VFloat f => inr (PrimFloat.ltb 0%float f)
  | _ => inl (compare_error v)
  end.

(** [len(v)] *)
Definition len (v : value) : exn + nat :=
  match v with
  | VList l => inr (List.length l)
  | VDict d => inr (List.length d)
  | _ => len_other v
  end.

(** [st.metric(label, v)]: numbers, strings and None are shown. *)
Definition st_metric (label : string) (v : value) : M unit :=
  match v with
  | VList _ | VDict _ => lift (inl (metric_error v))
  | _ => emit (Metric label v)
  end.

(** [st.dataframe(df)]: the frame is shown unless Streamlit refuses it. *)
Definition not_shown (df : DataFrame) : option exn :=
  if distinct (columns df) then dataframe_error df
  else Some (duplicate_columns_error df).

Definition st_dataframe (df : DataFrame) : M unit :=
  match not_shown df with
  | Some e => lift (inl e)
  | None => emit (Dataframe df)
  end.

(** ** [pd.DataFrame] of a list of dicts and [pd.concat(axis=1)] *)

Fixpoint as_dicts (l : list value) : option (list (list (string * value))) :=
  match l with
  | [] => Some []
  | VDict d :: l' => option_map (cons d) (as_dicts l')
  | _ => None
  end.

(** Keys in the order in which they first appear. *)
Fixpoint add_keys (seen ks : list string) : list string :=
  match ks with
  | [] => seen
  | k :: ks' =>
      if existsb (String.eqb k) seen then add_keys seen ks'
      else add_keys (seen ++ [k]) ks'
  end.

Definition keys_union (rs : list (list (string * value))) : list string :=
  fold_left (fun seen r => add_keys seen (map fst r)) rs [].

Definition field (k : string) (r : list (string * value)) : value :=
  match lookup k r with
  | Some v => v
  | None => NaN
  end.

(** A column built from Python objects, cell by cell. *)
Definition infer_dtype (col : list value) : list value :=
  map (infer_cast col) col.

Definition frame_of_records (rs : list (list (string * value))) : DataFrame :=
  mkDataFrame (List.length rs)
    (map (fun k => (k, infer_dtype (map (field k) rs))) (keys_union rs)).

Definition pd_DataFrame (v : value) : exn + DataFrame :=
  match v with
  | VList l =>
      match as_dicts l with
      | Some rs => inr (frame_of_records rs)
      | None => DataFrame_other v
      end
  | _ => DataFrame_other v
  end.

(** A column re-labelled to [0 .. n-1], [n] above its length: the rows it
    lacks are NaN. *)
Definition reindex_pad (n : nat) (col : list value) : list value :=
  map (nan_cast col) col ++ repeat NaN (n - List.length col).

(** The columns of a frame over the row labels [0 .. n-1], [n >= nrows]. *)
Definition reindex (n : nat) (df : DataFrame) : list (string * list value) :=
  if Nat.eqb (nrows df) n then cols df
  else map (fun kv => (fst kv, reindex_pad n (snd kv))) (cols df).

(** [pd.concat([a, b], axis=1)]: an outer join on the row labels.  Over
    default labels row [i] meets row [i] and the shorter frame is padded. *)
Definition concat_default (a b : DataFrame) : DataFrame :=
  let n := Nat.max (nrows a) (nrows b) in
  mkDataFrame n (reindex n a ++ reindex n b).

Definition pd_concat_axis1 (a b : DataFrame) : exn + DataFrame :=
  match labels a, labels b with
  | None, None => inr (concat_default a b)
  | _, _ => concat_on_labels a b
  end.

(** ** The four flows *)

(** Lines 24-28: the [try] suite of the health check. *)
Definition health_check_try (w : World) (api_url : string) : M unit :=
  health <- requests_get w (api_url +++ "/health") ;;
  if status_code health =? 200
  then emit (SidebarSuccess "API Connected ✅")
  else emit (SidebarError ("API Error: " +++ str_Z (status_code health))).

(** Lines 22-30 *)
Definition health_check (w : World) (api_url : string) : M unit :=
  try_except (health_check_try w api_url)
    (fun _ => emit (SidebarError "API Unreachable ❌")).

(** Lines 77-89: the display of a decoded prediction. *)
Definition show_prediction (result : value) : M unit :=
  emit (Subheader "Prediction Result") ;;
  p <- lift (getitem result "churn_probability") ;;
  s <- lift (format_pct p) ;;
  st_metric "Churn Probability" (VStr s) ;;
  c <- lift (getitem result "prediction") ;;
  st_metric "Prediction" (VStr (if eq_one c then "Churn" else "Stay")) ;;
  r <- lift (getitem result "risk_level") ;;
  st_metric "Risk Level" r ;;
  c' <- lift (getitem result "prediction") ;;
  if eq_one c'
  then emit (Error "⚠️ This customer is likely to churn.")
  else emit (Success "✅ This customer is likely to stay.").

(** Lines 75-91: the [try] suite of the Predict button. *)
Definition predict_try (w : World) (api_url : string) (i : SingleInputs)
  : M unit :=
  response <- requests_post w (api_url +++ "/predict")
                (Some (VDict (payload i))) ;;
  if status_code response =? 200
  then result <- lift (json response) ;; show_prediction result
  else emit (Error ("Error: " +++ text response)).

(** Lines 61-93: the handler of the Predict button. *)
Definition predict (w : World) (api_url : string) (i : SingleInputs) : M unit :=
  try_except (predict_try w api_url i)
    (fun e => emit (Error ("Request failed: " +++ exn_str e))).

(** Lines 141-152: the display of a successful batch response. *)
Definition show_batch (df : DataFrame) (response : Response) : M unit :=
  body <- lift (json response) ;;
  results <- lift (getitem body "predictions") ;;
  result_df <- lift (pd_DataFrame results) ;;
  final_df <- lift (pd_concat_axis1 df result_df) ;;
  n <- lift (len results) ;;
  emit (Success ("Processed " +++ str_nat n +++ " records.")) ;;
  st_dataframe final_df ;;
  emit (DownloadButton "Download Results" final_df "predictions.csv" "text/csv").

(** Line 135 *)
Definition missing_hint : string :=
  "Ensure you have 'Geography' to convert, or 'Geography_Germany'/'Geography_Spain' directly.".

(** Lines 109-154: the [try] suite of the Predict Batch button. *)
Definition predict_batch_try (w : World) (api_url : string) (df : DataFrame)
  : M unit :=
  let df_processed := process df in
  let missing := missing_cols df_processed in
  match missing with
  | _ :: _ =>
      emit (Error ("Missing columns in CSV: " +++ repr_list missing)) ;;
      emit (Info missing_hint)
  | [] =>
      response <- requests_post w (api_url +++ "/predict/batch")
                    (Some (VList (records df_processed))) ;;
      if status_code response =? 200
      then show_batch df response
      else emit (Error ("Error: " +++ text response))
  end.

(** Lines 108-157: the handler of the Predict Batch button. *)
Definition predict_batch (w : World) (api_url : string) (df : DataFrame)
  : M unit :=
  try_except (predict_batch_try w api_url df)
    (fun e => emit (Error ("Batch processing failed: " +++ exn_str e))).

(** Lines 172-180: the display of a drift report. *)
Definition show_drift (data : value) : M unit :=
  a <- lift (getitem data "features_analyzed") ;;
  st_metric "Features Analyzed" a ;;
  d <- lift (getitem data "features_drifted") ;;
  st_metric "Features with Drift" d ;;
  d' <- lift (getitem data "features_drifted") ;;
  drifted <- lift (gt_zero d') ;;
  if (drifted : bool)
  then emit (Warning "⚠️ Data Drift Detected!")
  else emit (Success "✅ No Data Drift Detected.").

(** Lines 170-183: the [try] suite of the Check Drift button. *)
Definition check_drift_try (w : World) (api_url : string) (threshold : float)
  : M unit :=
  response <- requests_post w
                (api_url +++ "/drift/check?threshold=" +++ str_float threshold)
                None ;;
  if status_code response =? 200
  then data <- lift (json response) ;; show_drift data
  else emit (Error ("Error: " +++ text response)).

(** Lines 168-185: the handler of the Check Drift button. *)
Definition check_drift (w : World) (api_url : string) (threshold : float)
  : M unit :=
  try_except (check_drift_try w api_url threshold)
    (fun e => emit (Error ("Drift check failed: " +++ exn_str e))).

(** ** One run of the script *)

Definition tab1 (w : World) (ui : Ui) : M unit :=
  emit (Header "Predict Churn for a Single Client") ;;
  if predict_clicked ui then predict w (api_url ui) (inputs ui) else ret tt.

(** What lines 104 and 105 raise, if anything: [pd.read_csv] on a file it
    cannot parse, [st.dataframe] on a preview it cannot show. *)
Definition preview_error (ui : Ui) : option exn :=
  match uploaded_file ui with
  | None => None
  | Some (inl e) => Some e
  | Some (inr df) => not_shown (head df)
  end.

(** Lines 98-157.  Lines 104 and 105 are outside every [try]: what
    [pd.read_csv] or the preview raises ends the run. *)
Definition tab2 (w : World) (ui : Ui) : M unit :=
  emit (Header "Batch Prediction via CSV") ;;
  match uploaded_file ui with
  | Some read_csv =>
      df <- lift read_csv ;;
      st_dataframe (head df) ;;
      if predict_batch_clicked ui then predict_batch w (api_url ui) df
      else ret tt
  | None => ret tt
  end.

Definition tab3 (w : World) (ui : Ui) : M unit :=
  emit (Header "Drift Detection") ;;
  emit (Write "Compare production data against reference training data.") ;;
  if check_drift_clicked ui then check_drift w (api_url ui) (threshold ui)
  else ret tt.

Definition app (w : World) (ui : Ui) : M unit :=
  emit (Title "🏦 Bank Churn Prediction & Monitoring") ;;
  emit (SidebarHeader "Configuration") ;;
  health_check w (api_url ui) ;;
  tab1 w ui ;;
  tab2 w ui ;;
  tab3 w ui.

End Dashboard.

(** ** Scenarios

    Concrete inputs: the runtime gives the Python results for the values that
    occur in them and raises elsewhere. *)
Module Scenario.

(** The float of an integer, exact below 2^53. *)
Fixpoint float_of_pos (p : positive) : float :=
  match p with
  | xH => 1%float
  | xO q => (2 * float_of_pos q)%float
  | xI q => (2 * float_of_pos q + 1)%float
  end.

Definition float_of_Z (z : Z) : float :=
  match z with
  | Z0 => 0%float
  | Zpos p => float_of_pos p
  | Zneg p => (- float_of_pos p)%float
  end.

(** A column of numbers some of which are floats or missing is a column of
    floats: its integers become floats, its None becomes NaN. *)
Definition is_number (v : value) : bool :=
  match v with
  | VInt _ | VFloat _ | VNone => true
  | _ => false
  end.

Definition holds_number (v : value) : bool :=
  match v with
  | VInt _ | VFloat _ => true
  | _ => false
  end.

Definition numeric (col : list value) : bool :=
  forallb is_number col && existsb holds_number col.

Definition to_float (v : value) : value :=
  match v with
  | VInt z => VFloat (float_of_Z z)
  | VNone => NaN
  | _ => v
  end.

Definition runtime : PyRuntime := {|
  format_pct := fun v =>
    match v with
    | VFloat f =>
        if PrimFloat.eqb f 0.25%float then inr "25.00%"
        else if PrimFloat.eqb f 0.8%float then inr "80.00%"
        else inl (Exn "NotImplementedError" "")
    | _ => inl (Exn "TypeError" "unsupported format string")
    end;
  str_float := fun f =>
    if PrimFloat.eqb f 0.01%float then "0.01"
    else if PrimFloat.eqb f 0.02%float then "0.02"
    else if PrimFloat.eqb f 0.03%float then "0.03"
    else if PrimFloat.eqb f 0.04%float then "0.04"
    else if PrimFloat.eqb f 0.05%float then "0.05"
    else if PrimFloat.eqb f 0.06%float then "0.06"
    else if PrimFloat.eqb f 0.07%float then "0.07"
    else if PrimFloat.eqb f 0.08%float then "0.08"
    else if PrimFloat.eqb f 0.09%float then "0.09"
    else if PrimFloat.eqb f 0.1%float then "0.1"
    else "nan";
  getitem_error := fun _ _ => Exn "TypeError" "indices must be integers";
  compare_error := fun _ => Exn "TypeError" "'>' not supported";
  metric_error := fun _ => Exn "TypeError" "not an accepted type";
  len_other := fun _ => inl (Exn "TypeError" "object has no len()");
  DataFrame_other := fun _ =>
    inl (Exn "ValueError" "DataFrame constructor not properly called!");
  infer_cast := fun col v =>
    if forallb is_int col then v
    else if numeric col then to_float v else v;
  nan_cast := fun col v => if numeric col then to_float v else v;
  concat_on_labels := fun _ _ =>
    inl (Exn "NotImplementedError" "");
  duplicate_columns_error := fun df =>
    Exn "ValueError"
        ("Duplicate column names found: " +++ repr_list (columns df));
  dataframe_error := fun _ => None
|}.

(** The single prediction of the specification: a customer in France. *)
Definition customer : SingleInputs :=
  mkSingleInputs 650 35 5 50000%float 75000%float 2 1 1 "France".

(** An upload of two rows with a Geography column and a column the service
    does not know; the second country is written in lower case. *)
Definition table : DataFrame :=
  mkDataFrame 2
    [("Surname", [VStr "Hill"; VStr "Onio"]);
     ("CreditScore", [VInt 619; VInt 608]);
     ("Geography", [VStr "Germany"; VStr "spain"]);
     ("Age", [VInt 42; VInt 41]);
     ("Tenure", [VInt 2; VInt 1]);
     ("Balance", [VFloat 0%float; VFloat 83807.86%float]);
     ("NumOfProducts", [VInt 1; VInt 1]);
     ("HasCrCard", [VInt 1; VInt 0]);
     ("IsActiveMember", [VInt 1; VInt 1]);
     ("EstimatedSalary", [VFloat 101348.88%float; VFloat 112542.58%float])].

(** The same upload without its EstimatedSalary column. *)
Definition table_without_salary : DataFrame :=
  mkDataFrame 2 (removelast (cols table)).

Definition prediction_low : list (string * value) :=
  [("churn_probability", VFloat 0.25%float); ("prediction", VInt 0);
   ("risk_level", VStr "Low")].

Definition prediction_high : list (string * value) :=
  [("churn_probability", VFloat 0.8%float); ("prediction", VInt 1);
   ("risk_level", VStr "High")].

Definition ok (body : value) : exn + Response :=
  inr (mkResponse 200 "" (inr body)).

(** A service that answers every call with status 200. *)
Definition service : World :=
  mkWorld
    (fun _ => ok (VDict [("status", VStr "healthy")]))
    (fun _ body =>
       match body with
       | Some (VList _) =>
           ok (VDict [("predictions",
                       VList (map VDict [prediction_high; prediction_low]))])
       | Some _ => ok (VDict prediction_low)
       | None =>
           ok (VDict [("features_analyzed", VInt 8);
                      ("features_drifted", VInt 0)])
       end).

Definition unavailable : Response :=
  mkResponse 503 "Service Unavailable"
    (inl (Exn "JSONDecodeError" "Expecting value: line 1 column 1 (char 0)")).

(** A service that answers every call with status 503. *)
Definition service_unavailable : World :=
  mkWorld (fun _ => inr unavailable) (fun _ _ => inr unavailable).

(** A service whose every call fails in transport. *)
Definition refused : exn := Exn "ConnectionError" "Connection refused".

Definition service_unreachable : World :=
  mkWorld (fun _ => inl refused) (fun _ _ => inl refused).

Definition page : Ui :=
  mkUi "http://api" customer true (Some (inr table)) true 0.05%float true.

End Scenario.

(** * Properties *)

(** ** Association lists and frames *)

Lemma has_col_In (df : DataFrame) (c : string) :
  has_col df c = true <-> In c (columns df).
Proof.
  unfold has_col. rewrite existsb_exists. split.
  - intros [x [Hin Heq]]. apply String.eqb_eq in Heq. now subst.
  - intros Hin. exists c. split; [assumption | apply String.eqb_refl].
Qed.

Lemma has_col_not_In (df : DataFrame) (c : string) :
  has_col df c = false <-> ~ In c (columns df).
Proof.
  rewrite <- has_col_In. destruct (has_col df c); split; congruence.
Qed.

Lemma lookup_app {A : Type} (k : string) (l1 l2 : list (string * A)) :
  lookup k (l1 ++ l2) =
  match lookup k l1 with Some a => Some a | None => lookup k l2 end.
Proof.
  induction l1 as [|[k' a] l1 IH]; simpl; [reflexivity|].
  destruct (String.eqb k k'); auto.
Qed.

Lemma lookup_None {A : Type} (k : string) (l : list (string * A)) :
  lookup k l = None <-> ~ In k (map fst l).
Proof.
  induction l as [|[k' a] l IH]; simpl.
  - tauto.
  - destruct (String.eqb_spec k k') as [->|Hne].
    + split; [discriminate | intros H; exfalso; apply H; now left].
    + rewrite IH. split; [intros H [E|I]; [congruence | tauto] | tauto].
Qed.

Lemma lookup_In {A : Type} (k : string) (a : A) (l : list (string * A)) :
  lookup k l = Some a -> In (k, a) l.
Proof.
  induction l as [|[k' a'] l IH]; simpl; [discriminate|].
  destruct (String.eqb_spec k k') as [->|Hne].
  - intros [= ->]. now left.
  - intros H. right. auto.
Qed.

Lemma fst_overwrite c v kv : fst (overwrite c v kv) = fst kv.
Proof.
  unfold overwrite. destruct (String.eqb_spec (fst kv) c); simpl; congruence.
Qed.

Lemma lookup_overwrite_same c v l :
  In c (map fst l) -> lookup c (map (overwrite c v) l) = Some v.
Proof.
  induction l as [|[k a] l IH]; simpl; [tauto|].
  intros Hin. unfold overwrite at 1. simpl.
  destruct (String.eqb_spec k c) as [->|Hne].
  - now rewrite String.eqb_refl.
  - destruct (String.eqb_spec c k) as [->|_]; [congruence|].
    apply IH. destruct Hin; [congruence | assumption].
Qed.

Lemma lookup_overwrite_other c c' v l :
  c' <> c -> lookup c' (map (overwrite c v) l) = lookup c' l.
Proof.
  intros Hne. induction l as [|[k a] l IH]; simpl; [reflexivity|].
  unfold overwrite at 1. simpl.
  destruct (String.eqb_spec k c) as [->|Hkc].
  - destruct (String.eqb_spec c' c); [congruence | exact IH].
  - destruct (String.eqb c' k); [reflexivity | exact IH].
Qed.

Lemma columns_setitem df c v :
  columns (setitem df c v) =
  if has_col df c then columns df else columns df ++ [c].
Proof.
  unfold setitem, columns. destruct (has_col df c); simpl.
  - rewrite map_map. apply map_ext. intros kv. apply (fst_overwrite c v kv).
  - now rewrite map_app.
Qed.

Lemma nrows_setitem df c v : nrows (setitem df c v) = nrows df.
Proof. unfold setitem. now destruct (has_col df c). Qed.

Lemma has_col_setitem df c v c' :
  has_col (setitem df c v) c' = has_col df c' || String.eqb c' c.
Proof.
  unfold has_col at 1. rewrite columns_setitem.
  destruct (has_col df c) eqn:Hc.
  - fold (has_col df c'). destruct (String.eqb_spec c' c) as [->|_].
    + rewrite Hc. reflexivity.
    + now rewrite orb_false_r.
  - rewrite existsb_app. simpl. fold (has_col df c'). now rewrite orb_false_r.
Qed.

Lemma getcol_setitem_same df c v : getcol (setitem df c v) c = v.
Proof.
  unfold getcol, setitem. destruct (has_col df c) eqn:Hc; simpl.
  - apply has_col_In in Hc.
    now rewrite (lookup_overwrite_same c v (cols df) Hc).
  - apply has_col_not_In in Hc. apply lookup_None in Hc.
    rewrite lookup_app, Hc. simpl. now rewrite String.eqb_refl.
Qed.

Lemma getcol_setitem_other df c v c' :
  c' <> c -> getcol (setitem df c v) c' = getcol df c'.
Proof.
  intros Hne. unfold getcol, setitem. destruct (has_col df c); simpl.
  - now rewrite (lookup_overwrite_other c c' v (cols df) Hne).
  - rewrite lookup_app. destruct (lookup c' (cols df)); [reflexivity|].
    simpl. destruct (String.eqb_spec c' c); [congruence | reflexivity].
Qed.

Lemma wf_getcol df c :
  wf_df df -> has_col df c = true -> List.length (getcol df c) = nrows df.
Proof.
  intros Hwf Hc. unfold getcol.
  destruct (lookup c (cols df)) as [v|] eqn:Hl.
  - apply lookup_In in Hl. unfold wf_df in Hwf. rewrite Forall_forall in Hwf.
    exact (Hwf _ Hl).
  - apply lookup_None in Hl. apply has_col_In in Hc. contradiction.
Qed.

Lemma cell_indicator col s i :
  (i < List.length col)%nat ->
  cell (indicator col s) i = astype_int (eq_str (cell col i) s).
Proof.
  intros Hi. unfold cell, indicator.
  rewrite (nth_indep _ NaN (astype_int (eq_str NaN s))).
  - now rewrite (map_nth (fun v => astype_int (eq_str v s))).
  - now rewrite length_map.
Qed.

Lemma eq_str_true v s : eq_str v s = true <-> v = VStr s.
Proof.
  destruct v; simpl; try (split; [discriminate | intros [=]]).
  rewrite String.eqb_eq. split; [now intros -> | now intros [= ->]].
Qed.

(** The indicator columns of the processed table. *)
Lemma process_geography df :
  has_col df "Geography" = true ->
  getcol (process df) "Geography_Germany"
    = indicator (getcol df "Geography") "Germany" /\
  getcol (process df) "Geography_Spain"
    = indicator (getcol df "Geography") "Spain".
Proof.
  intros Hg. unfold process. rewrite Hg. cbv zeta. split.
  - rewrite getcol_setitem_other by discriminate.
    apply getcol_setitem_same.
  - rewrite getcol_setitem_same.
    now rewrite getcol_setitem_other by discriminate.
Qed.

Lemma nrows_process df : nrows (process df) = nrows df.
Proof.
  unfold process. destruct (has_col df "Geography"); [|reflexivity].
  now rewrite !nrows_setitem.
Qed.

Lemma getcol_process_other df c :
  c <> "Geography_Germany" -> c <> "Geography_Spain" ->
  getcol (process df) c = getcol df c.
Proof.
  intros H1 H2. unfold process. destruct (has_col df "Geography"); [|reflexivity].
  cbv zeta. now rewrite !getcol_setitem_other.
Qed.

Lemma has_col_process df c :
  has_col (process df) c =
  has_col df c
  || (has_col df "Geography"
      && (String.eqb c "Geography_Germany" || String.eqb c "Geography_Spain")).
Proof.
  unfold process. destruct (has_col df "Geography"); simpl.
  - rewrite !has_col_setitem. now rewrite orb_assoc.
  - now rewrite orb_false_r.
Qed.

(** ** The submitted records *)

Lemma records_length dfp : List.length (records dfp) = nrows dfp.
Proof.
  unfold records, to_dict_records. rewrite length_map, length_seq. reflexivity.
Qed.

Lemma records_map dfp :
  records dfp = map (fun i => VDict (record_at dfp i)) (seq 0 (nrows dfp)).
Proof.
  unfold records, to_dict_records. simpl nrows.
  apply map_ext. intros i. reflexivity.
Qed.

Lemma records_nth dfp i :
  (i < nrows dfp)%nat -> nth i (records dfp) VNone = VDict (record_at dfp i).
Proof.
  intros Hi. rewrite records_map.
  rewrite (nth_indep _ VNone (VDict (record_at dfp 0%nat)))
    by now rewrite length_map, length_seq.
  rewrite (map_nth (fun i => VDict (record_at dfp i))).
  now rewrite seq_nth.
Qed.

Lemma records_ext a b :
  nrows a = nrows b ->
  (forall c, In c required_cols -> getcol a c = getcol b c) ->
  records a = records b.
Proof.
  intros Hn Hc. rewrite !records_map, Hn. apply map_ext. intros i.
  f_equal. unfold record_at. apply map_ext_in. intros c Hin.
  now rewrite (Hc c Hin).
Qed.

(** ** The run monad *)

Lemma try_except_post (w : World) (u : string) (b : option value)
    (k : Response -> M unit) (h : exn -> M unit) :
  try_except (x <- requests_post w u b ;; k x) h =
  match post_oracle w u b with
  | inl e => let (t, r) := h e in (Post u b :: t, r)
  | inr a => let (t, r) := try_except (k a) h in (Post u b :: t, r)
  end.
Proof.
  unfold requests_post, bind, try_except.
  destruct (post_oracle w u b) as [e|a].
  - destruct (h e). reflexivity.
  - destruct (k a) as [t [e|x]]; simpl.
    + destruct (h e). reflexivity.
    + reflexivity.
Qed.

Lemma trace_try_except_post (w : World) (u : string) (b : option value)
    (k : Response -> M unit) (h : exn -> M unit) :
  exists t, trace (try_except (x <- requests_post w u b ;; k x) h) = Post u b :: t.
Proof.
  rewrite try_except_post. destruct (post_oracle w u b) as [e|a].
  - destruct (h e) as [t r]. now exists t.
  - destruct (try_except (k a) h) as [t r]. now exists t.
Qed.

Section Properties.

Context {py : PyRuntime}.

(** ** Geography encoding *)

(** C4. Single prediction: for each of the three countries of the select box
    the payload posted to [/predict] carries flags for which exactly one of
    "both zero", "Germany only", "Spain only" holds, France being the case
    with both flags zero. *)
Theorem single_geography_encoding (w : World) (url : string) (i : SingleInputs) :
  In (geography i) geography_options ->
  let gg := geo_germany (geography i) in
  let gs := geo_spain (geography i) in
  let france := gg = 0 /\ gs = 0 in
  let germany := gg = 1 /\ gs = 0 in
  let spain := gg = 0 /\ gs = 1 in
  (exists t, trace (predict w url i)
             = Post (url +++ "/predict") (Some (VDict (payload i))) :: t) /\
  lookup "Geography_Germany" (payload i) = Some (VInt gg) /\
  lookup "Geography_Spain" (payload i) = Some (VInt gs) /\
  ((france /\ ~ germany /\ ~ spain) \/
   (~ france /\ germany /\ ~ spain) \/
   (~ france /\ ~ germany /\ spain)) /\
  (geography i = "France" <-> france) /\
  (geography i = "Germany" <-> germany) /\
  (geography i = "Spain" <-> spain).
Proof.
  intros Hin. cbv zeta. split; [apply trace_try_except_post|].
  split; [reflexivity|]. split; [reflexivity|].
  unfold geography_options in Hin. simpl in Hin.
  destruct Hin as [E | [E | [E | []]]]; rewrite <- E; cbn;
    repeat split; intros; try tauto; try lia; try discriminate;
    try (intuition (try discriminate; lia)).
Qed.

(** C3. Batch prediction: when the upload has a Geography column, in every
    row of the processed table Geography_Germany is 1 exactly when the cell
    is "Germany" and 0 otherwise, Geography_Spain is 1 exactly when the cell
    is "Spain" and 0 otherwise, "France" gives 0 and 0, and the two flags sum
    to at most 1. *)
Theorem batch_geography_indicators (df : DataFrame) (i : nat) :
  wf_df df -> has_col df "Geography" = true -> (i < nrows (process df))%nat ->
  let g := cell (getcol df "Geography") i in
  exists a b : Z,
    cell (getcol (process df) "Geography_Germany") i = VInt a /\
    cell (getcol (process df) "Geography_Spain") i = VInt b /\
    (a = 1 <-> g = VStr "Germany") /\ (a = 0 \/ a = 1) /\
    (b = 1 <-> g = VStr "Spain") /\ (b = 0 \/ b = 1) /\
    (g = VStr "France" -> a = 0 /\ b = 0) /\
    a + b <= 1.
Proof.
  intros Hwf Hg Hi g. rewrite nrows_process in Hi.
  destruct (process_geography df Hg) as [HG HS]. rewrite HG, HS.
  rewrite !cell_indicator by now rewrite (wf_getcol df _ Hwf Hg).
  fold g. unfold astype_int.
  exists (if eq_str g "Germany" then 1 else 0),
         (if eq_str g "Spain" then 1 else 0).
  split; [reflexivity|]. split; [reflexivity|].
  destruct (eq_str g "Germany") eqn:EG; destruct (eq_str g "Spain") eqn:ES;
    try (apply eq_str_true in EG); try (apply eq_str_true in ES).
  - rewrite EG in ES. discriminate.
  - repeat split; auto; try lia; try congruence;
      intros E; rewrite E in *; discriminate.
  - repeat split; auto; try lia; try congruence;
      intros E; rewrite E in *; discriminate.
  - assert (NG : g <> VStr "Germany")
      by (intros E; apply eq_str_true in E; congruence).
    assert (NS : g <> VStr "Spain")
      by (intros E; apply eq_str_true in E; congruence).
    repeat split; auto; try lia; try congruence; try discriminate.
Qed.

(** ** Batch prediction: validation of the columns *)

Lemma predict_batch_rejected (w : World) (url : string) (df : DataFrame) :
  missing_cols (process df) <> [] ->
  predict_batch w url df =
  ([Error ("Missing columns in CSV: " +++ repr_list (missing_cols (process df)));
    Info missing_hint], inr tt).
Proof.
  intros Hm. unfold predict_batch, predict_batch_try. cbv zeta.
  destruct (missing_cols (process df)) as [|c m]; [congruence|].
  reflexivity.
Qed.

Lemma predict_batch_submits (w : World) (url : string) (df : DataFrame) :
  missing_cols (process df) = [] ->
  predict_batch w url df =
  let u := url +++ "/predict/batch" in
  let b := Some (VList (records (process df))) in
  let h := fun e => emit (Error ("Batch processing failed: " +++ exn_str e)) in
  match post_oracle w u b with
  | inl e => let (t, r) := h e in (Post u b :: t, r)
  | inr a =>
      let (t, r) :=
        try_except
          (if status_code a =? 200 then show_batch df a
           else emit (Error ("Error: " +++ text a))) h
      in (Post u b :: t, r)
  end.
Proof.
  intros Hm. unfold predict_batch, predict_batch_try. cbv zeta. rewrite Hm.
  apply try_except_post.
Qed.

Lemma trace_predict_batch_submits (w : World) (url : string) (df : DataFrame) :
  missing_cols (process df) = [] ->
  exists t, trace (predict_batch w url df)
            = Post (url +++ "/predict/batch")
                   (Some (VList (records (process df)))) :: t.
Proof.
  intros Hm. rewrite (predict_batch_submits w url df Hm). cbv zeta.
  destruct (post_oracle w _ _) as [e|a].
  - simpl. eauto.
  - destruct (try_except _ _) as [t r]. simpl. eauto.
Qed.

Lemma missing_cols_In (dfp : DataFrame) (c : string) :
  In c (missing_cols dfp) <-> In c required_cols /\ ~ In c (columns dfp).
Proof.
  unfold missing_cols. rewrite filter_In, negb_true_iff, has_col_not_In.
  reflexivity.
Qed.

Lemma required_cols_NoDup : NoDup required_cols.
Proof.
  unfold required_cols.
  repeat (constructor; [simpl; intuition discriminate|]). constructor.
Qed.

(** C1. The Predict Batch handler rejects the upload, and calls nothing over
    the network, exactly when the processed table lacks one of the ten
    required columns; the list it reports has the required names absent from
    the processed table, each once; otherwise all rows go out in one POST. *)
Theorem batch_rejected_iff_missing (w : World) (url : string) (df : DataFrame) :
  let dfp := process df in
  let missing := missing_cols dfp in
  let t := trace (predict_batch w url df) in
  let lacks := exists c, In c required_cols /\ ~ In c (columns dfp) in
  let rejected :=
    t = [Error ("Missing columns in CSV: " +++ repr_list missing);
         Info missing_hint] in
  (lacks <-> rejected) /\
  (lacks <-> network_calls t = []) /\
  (forall c, In c missing <-> In c required_cols /\ ~ In c (columns dfp)) /\
  NoDup missing /\
  (~ lacks ->
   exists t', t = Post (url +++ "/predict/batch") (Some (VList (records dfp)))
                  :: t').
Proof.
  cbv zeta.
  assert (Hlacks : (exists c, In c required_cols /\ ~ In c (columns (process df)))
                   <-> missing_cols (process df) <> []).
  { split.
    - intros [c Hc] E. apply missing_cols_In in Hc. rewrite E in Hc. exact Hc.
    - intros Hne. destruct (missing_cols (process df)) as [|c m] eqn:E;
        [congruence|].
      exists c. apply missing_cols_In. rewrite E. now left. }
  assert (Hsub : missing_cols (process df) = [] ->
                 exists t', trace (predict_batch w url df)
                   = Post (url +++ "/predict/batch")
                          (Some (VList (records (process df)))) :: t')
    by apply trace_predict_batch_submits.
  assert (Hin : forall c, In c (missing_cols (process df))
                  <-> In c required_cols /\ ~ In c (columns (process df)))
    by (intros c; apply missing_cols_In).
  assert (Hnd : NoDup (missing_cols (process df)))
    by (apply NoDup_filter, required_cols_NoDup).
  destruct (missing_cols (process df)) as [|c m] eqn:E.
  - destruct (Hsub eq_refl) as [t' Ht']. rewrite Ht'.
    assert (Hno : ~ (exists c, In c required_cols /\ ~ In c (columns (process df))))
      by (intros H; apply Hlacks in H; congruence).
    split; [|split; [|split; [|split]]].
    + split; [tauto | discriminate].
    + split; [tauto | simpl; discriminate].
    + exact Hin.
    + exact Hnd.
    + intros _. now exists t'.
  - assert (Hne : missing_cols (process df) <> []) by (rewrite E; discriminate).
    assert (Hyes : exists c, In c required_cols /\ ~ In c (columns (process df)))
      by (apply Hlacks; discriminate).
    rewrite (predict_batch_rejected w url df Hne), E. simpl trace.
    split; [|split; [|split; [|split]]].
    + split; [reflexivity | intros _; exact Hyes].
    + split; [reflexivity | intros _; exact Hyes].
    + exact Hin.
    + exact Hnd.
    + intros H. contradiction.
Qed.

Lemma indicator_update_nth (col : list value) (i : nat) (v : value) (s : string) :
  eq_str v s = eq_str (cell col i) s ->
  indicator (update_nth i v col) s = indicator col s.
Proof.
  revert i. induction col as [|x col IH]; intros i Hv; [reflexivity|].
  destruct i as [|i]; simpl.
  - unfold cell in Hv. simpl in Hv. now rewrite Hv.
  - f_equal. apply (IH i). exact Hv.
Qed.

Lemma columns_with_cell df c i v :
  has_col df c = true -> columns (with_cell df c i v) = columns df.
Proof.
  intros Hc. unfold with_cell. now rewrite columns_setitem, Hc.
Qed.

Lemma has_col_with_cell df c i v c' :
  has_col df c = true -> has_col (with_cell df c i v) c' = has_col df c'.
Proof.
  intros Hc. unfold has_col. now rewrite (columns_with_cell df c i v Hc).
Qed.

Lemma eq_str_false v s : v <> VStr s -> eq_str v s = false.
Proof.
  intros Hne. destruct (eq_str v s) eqn:E; [|reflexivity].
  apply eq_str_true in E. contradiction.
Qed.

(** C9. Batch prediction: a Geography cell that is neither "Germany" nor
    "Spain" (another spelling, another case, a missing value, anything else)
    gives both flags 0 in the submitted record; the request is the one the
    same table would give with "France" in that cell, and the handler shows
    nothing about the cell: it reports the same missing columns and, when none
    is missing, goes straight to the POST. *)
Theorem batch_geography_other_values
    (w : World) (url : string) (df : DataFrame) (i : nat) :
  wf_df df -> has_col df "Geography" = true -> (i < nrows (process df))%nat ->
  let g := cell (getcol df "Geography") i in
  let df_france := with_cell df "Geography" i (VStr "France") in
  g <> VStr "Germany" -> g <> VStr "Spain" ->
  lookup "Geography_Germany" (record_at (process df) i) = Some (VInt 0) /\
  lookup "Geography_Spain" (record_at (process df) i) = Some (VInt 0) /\
  records (process df_france) = records (process df) /\
  missing_cols (process df_france) = missing_cols (process df) /\
  (missing_cols (process df) = [] ->
   exists t, trace (predict_batch w url df)
             = Post (url +++ "/predict/batch")
                    (Some (VList (records (process df)))) :: t).
Proof.
  intros Hwf Hg Hi g df_france NG NS. rewrite nrows_process in Hi.
  pose proof (eq_str_false g "Germany" NG) as EG.
  pose proof (eq_str_false g "Spain" NS) as ES.
  destruct (process_geography df Hg) as [HG HS].
  assert (Hlen : (i < List.length (getcol df "Geography"))%nat)
    by now rewrite (wf_getcol df _ Hwf Hg).
  assert (Hg' : has_col df_france "Geography" = true)
    by (unfold df_france; now rewrite has_col_with_cell).
  destruct (process_geography df_france Hg') as [HG' HS'].
  assert (Hcol : getcol df_france "Geography"
                 = update_nth i (VStr "France") (getcol df "Geography"))
    by apply getcol_setitem_same.
  split; [|split; [|split; [|split]]].
  - cbn. rewrite HG, (cell_indicator _ _ _ Hlen). fold g. now rewrite EG.
  - cbn. rewrite HS, (cell_indicator _ _ _ Hlen). fold g. now rewrite ES.
  - apply records_ext.
    + rewrite !nrows_process. unfold df_france, with_cell.
      apply nrows_setitem.
    + intros c Hin. simpl in Hin.
      repeat (destruct Hin as [<- | Hin]);
        try (rewrite !getcol_process_other by discriminate;
             unfold df_france, with_cell;
             now rewrite getcol_setitem_other by discriminate).
      * rewrite HG', HG, Hcol. apply indicator_update_nth.
        fold g. now rewrite EG.
      * rewrite HS', HS, Hcol. apply indicator_update_nth.
        fold g. now rewrite ES.
      * contradiction.
  - unfold missing_cols. apply filter_ext. intros c.
    rewrite !has_col_process. unfold df_france.
    now rewrite !has_col_with_cell.
  - apply trace_predict_batch_submits.
Qed.

(** ** Batch prediction: the combined table *)

Lemma as_dicts_map (rs : list (list (string * value))) :
  as_dicts (map VDict rs) = Some rs.
Proof.
  induction rs as [|r rs IH]; simpl; [reflexivity|]. now rewrite IH.
Qed.

Lemma columns_reindex (n : nat) (df : DataFrame) :
  map fst (reindex n df) = columns df.
Proof.
  unfold reindex, columns. destruct (Nat.eqb (nrows df) n); [reflexivity|].
  rewrite map_map. reflexivity.
Qed.

Lemma columns_concat (a b : DataFrame) :
  columns (concat_default a b) = columns a ++ columns b.
Proof.
  unfold concat_default, columns at 1. simpl.
  now rewrite map_app, !columns_reindex.
Qed.

Lemma concat_not_longer (a b : DataFrame) :
  (nrows b <= nrows a)%nat ->
  concat_default a b = mkDataFrame (nrows a) (cols a ++ reindex (nrows a) b).
Proof.
  intros Hle. unfold concat_default. rewrite Nat.max_l by exact Hle.
  unfold reindex at 1. now rewrite Nat.eqb_refl.
Qed.

Lemma concat_same_rows (a b : DataFrame) :
  nrows b = nrows a ->
  concat_default a b = mkDataFrame (nrows a) (cols a ++ cols b).
Proof.
  intros E. rewrite concat_not_longer by lia.
  unfold reindex. rewrite E, Nat.eqb_refl. reflexivity.
Qed.

Lemma concat_default_labels (a b : DataFrame) :
  labels a = None -> labels b = None ->
  pd_concat_axis1 a b = inr (concat_default a b).
Proof. intros Ha Hb. unfold pd_concat_axis1. now rewrite Ha, Hb. Qed.

Lemma row_frame_of_records (rs : list (list (string * value))) (i : nat) :
  (i < List.length rs)%nat ->
  row (frame_of_records rs) i
  = map (fun k => infer_cast (map (field k) rs) (field k (nth i rs [])))
        (keys_union rs).
Proof.
  intros Hi. unfold row, frame_of_records. simpl. rewrite map_map. simpl.
  apply map_ext. intros k. unfold cell, infer_dtype.
  rewrite (nth_indep _ NaN (infer_cast (map (field k) rs) (field k [])))
    by now rewrite !length_map.
  rewrite (map_nth (infer_cast (map (field k) rs))).
  now rewrite (map_nth (field k)).
Qed.

Lemma show_batch_ok (df : DataFrame) (resp : Response) (body : value)
    (rs : list (list (string * value))) :
  labels df = None ->
  json resp = inr body ->
  getitem body "predictions" = inr (VList (map VDict rs)) ->
  let final_df := concat_default df (frame_of_records rs) in
  show_batch df resp =
  match not_shown final_df with
  | None =>
      ([Success ("Processed " +++ str_nat (List.length rs) +++ " records.");
        Dataframe final_df;
        DownloadButton "Download Results" final_df "predictions.csv"
          "text/csv"], inr tt)
  | Some e =>
      ([Success ("Processed " +++ str_nat (List.length rs) +++ " records.")],
       inl e)
  end.
Proof.
  intros Hl Hj Hp. unfold show_batch. rewrite Hj. unfold lift, bind at 1.
  rewrite Hp. unfold bind at 1. unfold pd_DataFrame. rewrite as_dicts_map.
  unfold bind at 1.
  rewrite (concat_default_labels df (frame_of_records rs) Hl eq_refl).
  unfold bind at 1. unfold len. rewrite length_map. cbv zeta.
  unfold st_dataframe.
  destruct (not_shown (concat_default df (frame_of_records rs))); reflexivity.
Qed.

Lemma predict_batch_ok (w : World) (url : string) (df : DataFrame)
    (resp : Response) (body : value) (rs : list (list (string * value))) :
  labels df = None ->
  missing_cols (process df) = [] ->
  post_oracle w (url +++ "/predict/batch")
              (Some (VList (records (process df)))) = inr resp ->
  status_code resp = 200 ->
  json resp = inr body ->
  getitem body "predictions" = inr (VList (map VDict rs)) ->
  let final_df := concat_default df (frame_of_records rs) in
  predict_batch w url df =
  match not_shown final_df with
  | None =>
      ([Post (url +++ "/predict/batch") (Some (VList (records (process df))));
        Success ("Processed " +++ str_nat (List.length rs) +++ " records.");
        Dataframe final_df;
        DownloadButton "Download Results" final_df "predictions.csv"
          "text/csv"], inr tt)
  | Some e =>
      ([Post (url +++ "/predict/batch") (Some (VList (records (process df))));
        Success ("Processed " +++ str_nat (List.length rs) +++ " records.");
        Error ("Batch processing failed: " +++ exn_str e)], inr tt)
  end.
Proof.
  intros Hl Hm Hpost Hs Hj Hp. rewrite (predict_batch_submits w url df Hm).
  cbv zeta. rewrite Hpost, Hs. simpl Z.eqb. cbv iota.
  rewrite (show_batch_ok df resp body rs Hl Hj Hp). cbv zeta.
  destruct (not_shown (concat_default df (frame_of_records rs))); reflexivity.
Qed.

Lemma lookup_keys {A : Type} (f : string -> A) (k : string) (ks : list string) :
  In k ks -> lookup k (map (fun k => (k, f k)) ks) = Some (f k).
Proof.
  induction ks as [|k' ks IH]; simpl; [tauto|].
  intros Hin. destruct (String.eqb_spec k k') as [->|Hne]; [reflexivity|].
  apply IH. destruct Hin; [congruence | assumption].
Qed.

Lemma cell_frame_of_records (rs : list (list (string * value)))
    (k : string) (i : nat) :
  In k (keys_union rs) -> (i < List.length rs)%nat ->
  cell (getcol (frame_of_records rs) k) i
  = infer_cast (map (field k) rs) (field k (nth i rs [])).
Proof.
  intros Hk Hi. unfold getcol, frame_of_records. simpl cols.
  rewrite (lookup_keys (fun k => infer_dtype (map (field k) rs)) k _ Hk).
  unfold cell, infer_dtype.
  rewrite (nth_indep _ NaN (infer_cast (map (field k) rs) (field k [])))
    by now rewrite !length_map.
  rewrite (map_nth (infer_cast (map (field k) rs))).
  now rewrite (map_nth (field k)).
Qed.

(** C2, as the code has it.  Batch prediction over an upload with the
    default row labels: when the service answers 200 with as many predictions
    as the upload has rows and Streamlit shows the combined table (its column
    names are distinct), the table shown and offered for download has that
    many rows, keeps every uploaded column as it was (so the rows in their
    order), and its row [i] is uploaded row [i] followed by the cells pandas
    builds from the fields of prediction [i]: the field itself when it is not
    an integer or None, or when its column holds integers only. *)
Theorem batch_result_pairs_rows (w : World) (url : string) (df : DataFrame)
    (resp : Response) (body : value) (rs : list (list (string * value))) :
  labels df = None ->
  missing_cols (process df) = [] ->
  post_oracle w (url +++ "/predict/batch")
              (Some (VList (records (process df)))) = inr resp ->
  status_code resp = 200 ->
  json resp = inr body ->
  getitem body "predictions" = inr (VList (map VDict rs)) ->
  List.length rs = nrows df ->
  not_shown (concat_default df (frame_of_records rs)) = None ->
  exists final_df,
    predict_batch w url df =
    ([Post (url +++ "/predict/batch") (Some (VList (records (process df))));
      Success ("Processed " +++ str_nat (nrows df) +++ " records.");
      Dataframe final_df;
      DownloadButton "Download Results" final_df "predictions.csv" "text/csv"],
     inr tt) /\
    nrows final_df = nrows df /\
    cols final_df = cols df ++ cols (frame_of_records rs) /\
    (forall i, row final_df i = row df i ++ row (frame_of_records rs) i) /\
    (forall i, (i < nrows df)%nat ->
       row (frame_of_records rs) i
       = map (fun k => infer_cast (map (field k) rs) (field k (nth i rs [])))
             (keys_union rs)) /\
    (keeps_values py ->
     forall i k, (i < nrows df)%nat -> In k (keys_union rs) ->
       let v := field k (nth i rs []) in
       (is_int v = false /\ v <> VNone)
       \/ forallb is_int (map (field k) rs) = true ->
       cell (getcol (frame_of_records rs) k) i = v).
Proof.
  intros Hl Hm Hpost Hs Hj Hp Hlen Hshown.
  exists (concat_default df (frame_of_records rs)).
  split.
  - rewrite (predict_batch_ok w url df resp body rs Hl Hm Hpost Hs Hj Hp).
    cbv zeta. now rewrite Hshown, Hlen.
  - rewrite (concat_same_rows df (frame_of_records rs)) by exact Hlen.
    split; [reflexivity|]. split; [reflexivity|]. split; [|split].
    + intros i. unfold row. simpl. apply map_app.
    + intros i Hi. apply row_frame_of_records. now rewrite Hlen.
    + intros [Hkeep Hints] i k Hi Hk v Hv.
      assert (Hi' : (i < List.length rs)%nat) by now rewrite Hlen.
      rewrite (cell_frame_of_records rs k i Hk Hi').
      fold v. destruct Hv as [[Hni Hnn] | Hall].
      * now apply Hkeep.
      * assert (Hin : In v (map (field k) rs)).
        { unfold v. rewrite <- (map_nth (field k) rs [] i).
          apply nth_In. now rewrite length_map. }
        pose proof (proj1 (forallb_forall _ _) Hall v Hin) as Hint.
        destruct v; try discriminate. now apply Hints.
Qed.

Lemma record_at_fields (dfp : DataFrame) (i : nat) :
  map fst (record_at dfp i) = required_cols.
Proof. reflexivity. Qed.

Lemma record_at_lookup (dfp : DataFrame) (i : nat) (c : string) :
  In c required_cols ->
  lookup c (record_at dfp i) = Some (cell (getcol dfp c) i).
Proof.
  intros Hin. simpl in Hin.
  repeat (destruct Hin as [<- | Hin]); try reflexivity. contradiction.
Qed.

(** C10, as the code has it.  Batch prediction: the body posted to
    [/predict/batch] has one record per row, each with the ten required
    fields and nothing else, taken from the processed table; a column of the
    upload outside the ten, Geography included, is in no record.  Over the
    default row labels, the table Streamlit shows and offers for download on
    success has the uploaded columns, all of them and in their order, then
    the prediction columns; the uploaded columns are unchanged there when the
    response has no more predictions than the upload has rows. *)
Theorem batch_request_fields_display_columns
    (w : World) (url : string) (df : DataFrame) :
  missing_cols (process df) = [] ->
  let dfp := process df in
  let u := url +++ "/predict/batch" in
  (exists t, trace (predict_batch w url df)
             = Post u (Some (VList (records dfp))) :: t) /\
  records dfp = map (fun i => VDict (record_at dfp i)) (seq 0 (nrows df)) /\
  (forall i, map fst (record_at dfp i) = required_cols) /\
  (forall i c, In c required_cols ->
     lookup c (record_at dfp i) = Some (cell (getcol dfp c) i)) /\
  (forall i c, ~ In c required_cols -> lookup c (record_at dfp i) = None) /\
  ~ In "Geography" required_cols /\
  (forall resp body rs,
     labels df = None ->
     post_oracle w u (Some (VList (records dfp))) = inr resp ->
     status_code resp = 200 ->
     json resp = inr body ->
     getitem body "predictions" = inr (VList (map VDict rs)) ->
     not_shown (concat_default df (frame_of_records rs)) = None ->
     exists final_df,
       trace (predict_batch w url df) =
       [Post u (Some (VList (records dfp)));
        Success ("Processed " +++ str_nat (List.length rs) +++ " records.");
        Dataframe final_df;
        DownloadButton "Download Results" final_df "predictions.csv" "text/csv"]
       /\
       columns final_df = columns df ++ columns (frame_of_records rs) /\
       ((List.length rs <= nrows df)%nat ->
        exists added, cols final_df = cols df ++ added /\
                      map fst added = columns (frame_of_records rs))).
Proof.
  intros Hm. cbv zeta.
  split; [now apply trace_predict_batch_submits|].
  split; [rewrite records_map; now rewrite nrows_process|].
  split; [intros i; apply record_at_fields|].
  split; [intros i c; apply record_at_lookup|].
  split.
  { intros i c Hc. apply lookup_None. now rewrite record_at_fields. }
  split.
  { unfold required_cols. simpl. intuition discriminate. }
  intros resp body rs Hl Hpost Hs Hj Hp Hshown.
  exists (concat_default df (frame_of_records rs)).
  split.
  - rewrite (predict_batch_ok w url df resp body rs Hl Hm Hpost Hs Hj Hp).
    cbv zeta. now rewrite Hshown.
  - split; [apply columns_concat|].
    intros Hle. exists (reindex (nrows df) (frame_of_records rs)).
    split.
    + now rewrite concat_not_longer.
    + apply columns_reindex.
Qed.

(** ** Exceptions and network calls of a run *)

Lemma try_except_raised {A : Type} (m : M A) (h : exn -> M A) (e : exn) :
  outcome m = inl e ->
  try_except m h = (trace m ++ trace (h e), outcome (h e)).
Proof.
  destruct m as [t r]. simpl. intros ->. unfold try_except.
  now destruct (h e).
Qed.

Lemma try_except_returned {A : Type} (m : M A) (h : exn -> M A) (a : A) :
  outcome m = inr a -> try_except m h = m.
Proof. destruct m as [t r]. simpl. now intros ->. Qed.

Lemma trace_bind_returned {A B : Type} (m : M A) (k : A -> M B) (a : A) :
  outcome m = inr a -> trace (bind m k) = trace m ++ trace (k a).
Proof.
  destruct m as [t r]. simpl. intros ->. unfold bind. now destruct (k a).
Qed.

Lemma calls_app (t1 t2 : list event) :
  network_calls (t1 ++ t2) = network_calls t1 ++ network_calls t2.
Proof. apply filter_app. Qed.

Lemma calls_after_post {A : Type} (m : M A) (u : string) (b : option value) :
  network_calls (trace (let (t, r) := m in (Post u b :: t, r)))
  = Post u b :: network_calls (trace m).
Proof. now destruct m. Qed.

Lemma quiet_bind {A B : Type} (m : M A) (k : A -> M B) :
  network_calls (trace m) = [] ->
  (forall a, network_calls (trace (k a)) = []) ->
  network_calls (trace (bind m k)) = [].
Proof.
  destruct m as [t [e|a]]; simpl; intros Hm Hk; [exact Hm|].
  specialize (Hk a). unfold bind. destruct (k a) as [t' r]. simpl in *.
  now rewrite calls_app, Hm, Hk.
Qed.

Lemma quiet_try_except {A : Type} (m : M A) (h : exn -> M A) :
  network_calls (trace m) = [] ->
  (forall e, network_calls (trace (h e)) = []) ->
  network_calls (trace (try_except m h)) = [].
Proof.
  destruct m as [t [e|a]]; simpl; intros Hm Hh; [|exact Hm].
  specialize (Hh e). destruct (h e) as [t' r]. simpl in *.
  now rewrite calls_app, Hm, Hh.
Qed.

Lemma quiet_lift {A : Type} (r : exn + A) : network_calls (trace (lift r)) = [].
Proof. reflexivity. Qed.

Lemma quiet_st_metric (label : string) (v : value) :
  network_calls (trace (st_metric label v)) = [].
Proof. now destruct v. Qed.

Lemma quiet_st_dataframe (df : DataFrame) :
  network_calls (trace (st_dataframe df)) = [].
Proof. unfold st_dataframe. now destruct (not_shown df). Qed.

Ltac quiet :=
  repeat first
    [ apply quiet_lift
    | apply quiet_st_metric
    | apply quiet_st_dataframe
    | reflexivity
    | apply quiet_bind; [|intros]
    | match goal with
      | |- context [if ?b then _ else _] => destruct b
      end ].

Lemma quiet_show_prediction (result : value) :
  network_calls (trace (show_prediction result)) = [].
Proof. unfold show_prediction. quiet. Qed.

Lemma quiet_show_batch (df : DataFrame) (response : Response) :
  network_calls (trace (show_batch df response)) = [].
Proof. unfold show_batch. quiet. Qed.

Lemma quiet_show_drift (data : value) :
  network_calls (trace (show_drift data)) = [].
Proof. unfold show_drift. quiet. Qed.

(** A handler of the shape shared by the three flows: one POST inside a
    [try], the status tested against 200, every exception caught. *)
Lemma post_flow_errors (w : World) (u : string) (b : option value)
    (k : Response -> M unit) (prefix : string) :
  (forall r, network_calls (trace (k r)) = []) ->
  let suite :=
    response <- requests_post w u b ;;
    if status_code response =? 200 then k response
    else emit (Error ("Error: " +++ text response)) in
  let run := try_except suite (fun e => emit (Error (prefix +++ exn_str e))) in
  (forall r, post_oracle w u b = inr r -> status_code r <> 200 ->
     run = ([Post u b; Error ("Error: " +++ text r)], inr tt)) /\
  (forall e, post_oracle w u b = inl e ->
     run = ([Post u b; Error (prefix +++ exn_str e)], inr tt)) /\
  (forall e, outcome suite = inl e ->
     run = (trace suite ++ [Error (prefix +++ exn_str e)], inr tt)) /\
  network_calls (trace run) = [Post u b] /\
  outcome run = inr tt.
Proof.
  intros Hk suite run.
  split; [|split; [|split; [|split]]].
  - intros r Hr Hs. unfold run, suite. rewrite try_except_post, Hr.
    apply Z.eqb_neq in Hs. rewrite Hs. reflexivity.
  - intros e He. unfold run, suite. rewrite try_except_post, He. reflexivity.
  - intros e He. unfold run.
    now rewrite (try_except_raised suite _ e He).
  - unfold run, suite. rewrite try_except_post.
    destruct (post_oracle w u b) as [e|r]; [reflexivity|].
    rewrite calls_after_post. f_equal.
    apply quiet_try_except; [|reflexivity].
    destruct (status_code r =? 200); [apply Hk | reflexivity].
  - unfold run. destruct suite as [t [e|[]]]; reflexivity.
Qed.

(** C7. In each of the three flows a response whose status is not 200 puts
    the response body, as received, in the error message after "Error: "; an
    exception raised by the call, or anywhere in the [try] suite, puts
    [str(e)] in the error message after the flow's prefix; the handler itself
    never raises, and every run of it makes one call and no second one. *)
Theorem flows_surface_errors_without_retry
    (w : World) (url : string) (i : SingleInputs) (df : DataFrame)
    (threshold : float) :
  let u1 := url +++ "/predict" in
  let b1 := Some (VDict (payload i)) in
  let u2 := url +++ "/predict/batch" in
  let b2 := Some (VList (records (process df))) in
  let u3 := url +++ "/drift/check?threshold=" +++ str_float threshold in
  ((forall r, post_oracle w u1 b1 = inr r -> status_code r <> 200 ->
      predict w url i = ([Post u1 b1; Error ("Error: " +++ text r)], inr tt)) /\
   (forall e, post_oracle w u1 b1 = inl e ->
      predict w url i
      = ([Post u1 b1; Error ("Request failed: " +++ exn_str e)], inr tt)) /\
   (forall e, outcome (predict_try w url i) = inl e ->
      predict w url i
      = (trace (predict_try w url i)
           ++ [Error ("Request failed: " +++ exn_str e)], inr tt)) /\
   network_calls (trace (predict w url i)) = [Post u1 b1] /\
   outcome (predict w url i) = inr tt) /\
  (missing_cols (process df) = [] ->
   (forall r, post_oracle w u2 b2 = inr r -> status_code r <> 200 ->
      predict_batch w url df
      = ([Post u2 b2; Error ("Error: " +++ text r)], inr tt)) /\
   (forall e, post_oracle w u2 b2 = inl e ->
      predict_batch w url df
      = ([Post u2 b2; Error ("Batch processing failed: " +++ exn_str e)],
         inr tt)) /\
   (forall e, outcome (predict_batch_try w url df) = inl e ->
      predict_batch w url df
      = (trace (predict_batch_try w url df)
           ++ [Error ("Batch processing failed: " +++ exn_str e)], inr tt)) /\
   network_calls (trace (predict_batch w url df)) = [Post u2 b2] /\
   outcome (predict_batch w url df) = inr tt) /\
  ((forall r, post_oracle w u3 None = inr r -> status_code r <> 200 ->
      check_drift w url threshold
      = ([Post u3 None; Error ("Error: " +++ text r)], inr tt)) /\
   (forall e, post_oracle w u3 None = inl e ->
      check_drift w url threshold
      = ([Post u3 None; Error ("Drift check failed: " +++ exn_str e)],
         inr tt)) /\
   (forall e, outcome (check_drift_try w url threshold) = inl e ->
      check_drift w url threshold
      = (trace (check_drift_try w url threshold)
           ++ [Error ("Drift check failed: " +++ exn_str e)], inr tt)) /\
   network_calls (trace (check_drift w url threshold)) = [Post u3 None] /\
   outcome (check_drift w url threshold) = inr tt).
Proof.
  cbv zeta. split; [|split].
  - apply (post_flow_errors w (url +++ "/predict") (Some (VDict (payload i)))
             (fun response =>
                result <- lift (json response) ;; show_prediction result)
             "Request failed: ").
    intros r. apply quiet_bind; [apply quiet_lift|].
    intros a. apply quiet_show_prediction.
  - intros Hm. unfold predict_batch, predict_batch_try. cbv zeta. rewrite Hm.
    apply (post_flow_errors w (url +++ "/predict/batch")
             (Some (VList (records (process df))))
             (fun response => show_batch df response)
             "Batch processing failed: ").
    intros r. apply quiet_show_batch.
  - apply (post_flow_errors w
             (url +++ "/drift/check?threshold=" +++ str_float threshold) None
             (fun response =>
                data <- lift (json response) ;; show_drift data)
             "Drift check failed: ").
    intros r. apply quiet_bind; [apply quiet_lift|].
    intros a. apply quiet_show_drift.
Qed.

(** ** The health check *)

Lemma health_check_cases (w : World) (url : string) :
  health_check w url =
  ([Get (url +++ "/health");
    match get_oracle w (url +++ "/health") with
    | inl _ => SidebarError "API Unreachable ❌"
    | inr r =>
        if status_code r =? 200 then SidebarSuccess "API Connected ✅"
        else SidebarError ("API Error: " +++ str_Z (status_code r))
    end], inr tt).
Proof.
  unfold health_check, health_check_try, requests_get, bind, try_except.
  destruct (get_oracle w (url +++ "/health")) as [e|r]; [reflexivity|].
  destruct (status_code r =? 200); reflexivity.
Qed.

Lemma trace_app (w : World) (ui : Ui) :
  trace (app w ui) =
  [Title "🏦 Bank Churn Prediction & Monitoring";
   SidebarHeader "Configuration"]
  ++ trace (health_check w (api_url ui))
  ++ trace (tab1 w ui ;; tab2 w ui ;; tab3 w ui).
Proof.
  unfold app.
  rewrite (trace_bind_returned (emit _) _ tt) by reflexivity.
  rewrite (trace_bind_returned (emit _) _ tt) by reflexivity.
  rewrite (trace_bind_returned (health_check w (api_url ui)) _ tt)
    by now rewrite health_check_cases.
  reflexivity.
Qed.

(** C5, as the code has it.  Every run of the script makes one GET to
    [{api_url}/health] and no second one; status 200 shows "API Connected";
    any other status shows "API Error: " followed by the status code; an
    exception raised by the call shows "API Unreachable"; in each case the
    script goes on to the tabs. *)
Theorem health_check_reports (w : World) (ui : Ui) :
  let url := api_url ui in
  let u := url +++ "/health" in
  (exists rest,
     trace (app w ui) =
     [Title "🏦 Bank Churn Prediction & Monitoring";
      SidebarHeader "Configuration"]
     ++ trace (health_check w url) ++ rest) /\
  network_calls (trace (health_check w url)) = [Get u] /\
  outcome (health_check w url) = inr tt /\
  (forall r, get_oracle w u = inr r -> status_code r = 200 ->
     trace (health_check w url) = [Get u; SidebarSuccess "API Connected ✅"]) /\
  (forall r, get_oracle w u = inr r -> status_code r <> 200 ->
     trace (health_check w url)
     = [Get u; SidebarError ("API Error: " +++ str_Z (status_code r))]) /\
  (forall e, get_oracle w u = inl e ->
     trace (health_check w url) = [Get u; SidebarError "API Unreachable ❌"]).
Proof.
  cbv zeta. split; [|split; [|split; [|split; [|split]]]].
  - eexists. apply trace_app.
  - rewrite health_check_cases. simpl.
    destruct (get_oracle w _) as [e|r]; [reflexivity|].
    destruct (status_code r =? 200); reflexivity.
  - now rewrite health_check_cases.
  - intros r Hr Hs. rewrite health_check_cases, Hr, Hs. reflexivity.
  - intros r Hr Hs. rewrite health_check_cases, Hr.
    apply Z.eqb_neq in Hs. now rewrite Hs.
  - intros e He. rewrite health_check_cases, He. reflexivity.
Qed.

(** ** Independence of the flows from the health check *)

Lemma show_prediction_ok (p c : value) (r s : string) :
  format_pct p = inr s ->
  show_prediction
    (VDict [("churn_probability", p); ("prediction", c);
            ("risk_level", VStr r)])
  = ([Subheader "Prediction Result";
      Metric "Churn Probability" (VStr s);
      Metric "Prediction" (VStr (if eq_one c then "Churn" else "Stay"));
      Metric "Risk Level" (VStr r);
      if eq_one c then Error "⚠️ This customer is likely to churn."
      else Success "✅ This customer is likely to stay."], inr tt).
Proof.
  intros Hs. unfold show_prediction. cbn. rewrite Hs. cbn.
  destruct (eq_one c); reflexivity.
Qed.

Lemma outcome_predict (w : World) (url : string) (i : SingleInputs) :
  outcome (predict w url i) = inr tt.
Proof.
  apply (post_flow_errors w (url +++ "/predict") (Some (VDict (payload i)))
           (fun response =>
              result <- lift (json response) ;; show_prediction result)
           "Request failed: ").
  intros r. apply quiet_bind; [apply quiet_lift|].
  intros a. apply quiet_show_prediction.
Qed.

Lemma tab1_clicked (w : World) (ui : Ui) :
  predict_clicked ui = true ->
  tab1 w ui
  = (Header "Predict Churn for a Single Client"
       :: trace (predict w (api_url ui) (inputs ui)), inr tt).
Proof.
  intros Hc. unfold tab1. rewrite Hc.
  pose proof (outcome_predict w (api_url ui) (inputs ui)) as Ho.
  destruct (predict w (api_url ui) (inputs ui)) as [t o]. simpl in Ho.
  subst o. reflexivity.
Qed.

(** C8. Two runs that differ only in what the health check's GET gives run
    the same Predict handler and the same three tabs: same payload, same URL,
    same events after those of the health check.  In particular, in a run
    where the GET raises and Predict is clicked, the sidebar shows "API
    Unreachable" and the tab then posts the payload and displays the
    prediction of a POST answered 200. *)
Theorem health_result_does_not_affect_flows
    (w : World) (get' : string -> exn + Response) (ui : Ui) :
  let w' := mkWorld get' (post_oracle w) in
  let url := api_url ui in
  let u := url +++ "/predict" in
  let b := Some (VDict (payload (inputs ui))) in
  let top := [Title "🏦 Bank Churn Prediction & Monitoring";
              SidebarHeader "Configuration"] in
  predict w' url (inputs ui) = predict w url (inputs ui) /\
  (exists rest,
     trace (app w ui) = top ++ trace (health_check w url) ++ rest /\
     trace (app w' ui) = top ++ trace (health_check w' url) ++ rest) /\
  (exists t, trace (predict w' url (inputs ui)) = Post u b :: t) /\
  (forall e resp p c r s,
     get' (url +++ "/health") = inl e ->
     post_oracle w u b = inr resp ->
     status_code resp = 200 ->
     json resp = inr (VDict [("churn_probability", p); ("prediction", c);
                             ("risk_level", VStr r)]) ->
     format_pct p = inr s ->
     trace (health_check w' url)
     = [Get (url +++ "/health"); SidebarError "API Unreachable ❌"] /\
     predict w' url (inputs ui)
     = ([Post u b;
         Subheader "Prediction Result";
         Metric "Churn Probability" (VStr s);
         Metric "Prediction" (VStr (if eq_one c then "Churn" else "Stay"));
         Metric "Risk Level" (VStr r);
         if eq_one c then Error "⚠️ This customer is likely to churn."
         else Success "✅ This customer is likely to stay."], inr tt)) /\
  (predict_clicked ui = true ->
   exists rest,
     trace (app w ui)
     = top ++ trace (health_check w url)
       ++ Header "Predict Churn for a Single Client"
          :: trace (predict w url (inputs ui)) ++ rest /\
     trace (app w' ui)
     = top ++ trace (health_check w' url)
       ++ Header "Predict Churn for a Single Client"
          :: trace (predict w url (inputs ui)) ++ rest) /\
  (forall e resp p c r s,
     predict_clicked ui = true ->
     get' (url +++ "/health") = inl e ->
     post_oracle w u b = inr resp ->
     status_code resp = 200 ->
     json resp = inr (VDict [("churn_probability", p); ("prediction", c);
                             ("risk_level", VStr r)]) ->
     format_pct p = inr s ->
     exists rest,
       trace (app w' ui)
       = top
         ++ [Get (url +++ "/health"); SidebarError "API Unreachable ❌";
             Header "Predict Churn for a Single Client";
             Post u b;
             Subheader "Prediction Result";
             Metric "Churn Probability" (VStr s);
             Metric "Prediction" (VStr (if eq_one c then "Churn" else "Stay"));
             Metric "Risk Level" (VStr r);
             if eq_one c then Error "⚠️ This customer is likely to churn."
             else Success "✅ This customer is likely to stay."]
         ++ rest).
Proof.
  cbv zeta.
  assert (Hpart : forall e resp p c r s,
     get' (api_url ui +++ "/health") = inl e ->
     post_oracle w (api_url ui +++ "/predict")
       (Some (VDict (payload (inputs ui)))) = inr resp ->
     status_code resp = 200 ->
     json resp = inr (VDict [("churn_probability", p); ("prediction", c);
                             ("risk_level", VStr r)]) ->
     format_pct p = inr s ->
     trace (health_check (mkWorld get' (post_oracle w)) (api_url ui))
     = [Get (api_url ui +++ "/health"); SidebarError "API Unreachable ❌"] /\
     predict (mkWorld get' (post_oracle w)) (api_url ui) (inputs ui)
     = ([Post (api_url ui +++ "/predict") (Some (VDict (payload (inputs ui))));
         Subheader "Prediction Result";
         Metric "Churn Probability" (VStr s);
         Metric "Prediction" (VStr (if eq_one c then "Churn" else "Stay"));
         Metric "Risk Level" (VStr r);
         if eq_one c then Error "⚠️ This customer is likely to churn."
         else Success "✅ This customer is likely to stay."], inr tt)).
  { intros e resp p c r s Hget Hpost Hs Hj Hf. split.
    - rewrite health_check_cases. simpl get_oracle. now rewrite Hget.
    - unfold predict, predict_try. rewrite try_except_post.
      simpl post_oracle. rewrite Hpost, Hs. simpl Z.eqb. cbv iota.
      rewrite Hj. unfold lift at 1. unfold bind at 1.
      rewrite (show_prediction_ok p c r s Hf). reflexivity. }
  assert (Htabs : predict_clicked ui = true ->
     forall w0 : World, post_oracle w0 = post_oracle w ->
     trace (tab1 w0 ui ;; tab2 w0 ui ;; tab3 w0 ui)
     = Header "Predict Churn for a Single Client"
         :: trace (predict w (api_url ui) (inputs ui))
         ++ trace (tab2 w ui ;; tab3 w ui)).
  { intros Hc w0 Hw0.
    assert (E1 : tab1 w0 ui = tab1 w ui)
      by (unfold tab1, predict, predict_try, requests_post; now rewrite Hw0).
    assert (E2 : (tab2 w0 ui ;; tab3 w0 ui) = (tab2 w ui ;; tab3 w ui)).
    { unfold tab2, tab3, predict_batch, predict_batch_try, check_drift,
        check_drift_try, requests_post. now rewrite Hw0. }
    rewrite (trace_bind_returned (tab1 w0 ui) _ tt)
      by (rewrite E1, (tab1_clicked w ui Hc); reflexivity).
    rewrite E1, E2, (tab1_clicked w ui Hc). reflexivity. }
  split; [reflexivity|]. split; [|split; [|split; [|split]]].
  - exists (trace (tab1 w ui ;; tab2 w ui ;; tab3 w ui)).
    split; [apply trace_app|].
    rewrite trace_app. reflexivity.
  - apply trace_try_except_post.
  - exact Hpart.
  - intros Hc. exists (trace (tab2 w ui ;; tab3 w ui)). split.
    + rewrite trace_app. do 2 f_equal. exact (Htabs Hc w eq_refl).
    + rewrite trace_app. do 2 f_equal. exact (Htabs Hc _ eq_refl).
  - intros e resp p c r s Hc Hget Hpost Hs Hj Hf.
    destruct (Hpart e resp p c r s Hget Hpost Hs Hj Hf) as [Hh Hp].
    exists (trace (tab2 w ui ;; tab3 w ui)).
    rewrite trace_app, Hh. f_equal.
    transitivity
      ([Get (api_url ui +++ "/health"); SidebarError "API Unreachable ❌"]
       ++ Header "Predict Churn for a Single Client"
          :: trace (predict (mkWorld get' (post_oracle w)) (api_url ui)
                      (inputs ui))
          ++ trace (tab2 w ui ;; tab3 w ui)).
    + f_equal. exact (Htabs Hc _ eq_refl).
    + rewrite Hp. reflexivity.
Qed.

(** ** The drift threshold *)


End Properties.

(** * The scenarios, evaluated *)

Import Scenario.

Example health_connected :
  trace (health_check service "http://api")
  = [Get "http://api/health"; SidebarSuccess "API Connected ✅"].
Proof. reflexivity. Qed.

Example health_unreachable :
  trace (health_check service_unreachable "http://api")
  = [Get "http://api/health"; SidebarError "API Unreachable ❌"].
Proof. reflexivity. Qed.

Example predict_customer :
  predict (py := runtime) service "http://api" customer
  = ([Post "http://api/predict" (Some (VDict (payload customer)));
      Subheader "Prediction Result";
      Metric "Churn Probability" (VStr "25.00%");
      Metric "Prediction" (VStr "Stay");
      Metric "Risk Level" (VStr "Low");
      Success "✅ This customer is likely to stay."], inr tt).
Proof. reflexivity. Qed.

Example predict_refused :
  predict (py := runtime) service_unreachable "http://api" customer
  = ([Post "http://api/predict" (Some (VDict (payload customer)));
      Error "Request failed: Connection refused"], inr tt).
Proof. reflexivity. Qed.

Example predict_batch_without_salary :
  predict_batch (py := runtime) service "http://api" table_without_salary
  = ([Error "Missing columns in CSV: ['EstimatedSalary']"; Info missing_hint],
     inr tt).
Proof. reflexivity. Qed.

Example records_of_table :
  records (process table)
  = [VDict [("CreditScore", VInt 619); ("Age", VInt 42); ("Tenure", VInt 2);
            ("Balance", VFloat 0%float); ("NumOfProducts", VInt 1);
            ("HasCrCard", VInt 1); ("IsActiveMember", VInt 1);
            ("EstimatedSalary", VFloat 101348.88%float);
            ("Geography_Germany", VInt 1); ("Geography_Spain", VInt 0)];
     VDict [("CreditScore", VInt 608); ("Age", VInt 41); ("Tenure", VInt 1);
            ("Balance", VFloat 83807.86%float); ("NumOfProducts", VInt 1);
            ("HasCrCard", VInt 0); ("IsActiveMember", VInt 1);
            ("EstimatedSalary", VFloat 112542.58%float);
            ("Geography_Germany", VInt 0); ("Geography_Spain", VInt 0)]].
Proof. reflexivity. Qed.

Example check_drift_503 :
  check_drift (py := runtime) service_unavailable "http://api" 0.05%float
  = ([Post "http://api/drift/check?threshold=0.05" None;
      Error "Error: Service Unavailable"], inr tt).
Proof. reflexivity. Qed.

Lemma wf_table : wf_df table.
Proof. unfold wf_df. simpl. repeat constructor. Qed.

Lemma table_complete : missing_cols (process table) = [].
Proof. reflexivity. Qed.

(** The customer in France: both flags are 0 in the payload that is posted. *)
Lemma single_geography_encoding_witness :
  In (geography customer) geography_options /\
  lookup "Geography_Germany" (payload customer) = Some (VInt 0) /\
  lookup "Geography_Spain" (payload customer) = Some (VInt 0) /\
  exists t, trace (predict (py := runtime) service "http://api" customer)
            = Post "http://api/predict" (Some (VDict (payload customer))) :: t.
Proof.
  assert (Hin : In (geography customer) geography_options)
    by (simpl; auto).
  destruct (single_geography_encoding (py := runtime) service "http://api"
              customer Hin) as (Ht & Hg & Hs & _).
  split; [exact Hin|]. split; [exact Hg|]. split; [exact Hs | exact Ht].
Defined.

(** Row 0 of the upload is in Germany. *)
Lemma batch_geography_indicators_witness :
  wf_df table /\ has_col table "Geography" = true /\
  (0 < nrows (process table))%nat /\
  exists a b : Z,
    cell (getcol (process table) "Geography_Germany") 0 = VInt a /\
    cell (getcol (process table) "Geography_Spain") 0 = VInt b /\
    a + b <= 1.
Proof.
  assert (Hi : (0 < nrows (process table))%nat) by (simpl; lia).
  destruct (batch_geography_indicators table 0%nat wf_table eq_refl Hi)
    as (a & b & Ha & Hb & _ & _ & _ & _ & _ & Hab).
  split; [exact wf_table|]. split; [reflexivity|]. split; [exact Hi|].
  exists a, b. repeat split; assumption.
Defined.

(** Row 1 of the upload has "spain", which is not "Spain". *)
Lemma batch_geography_other_values_witness :
  wf_df table /\ has_col table "Geography" = true /\
  (1 < nrows (process table))%nat /\
  cell (getcol table "Geography") 1 <> VStr "Germany" /\
  cell (getcol table "Geography") 1 <> VStr "Spain" /\
  lookup "Geography_Germany" (record_at (process table) 1) = Some (VInt 0) /\
  lookup "Geography_Spain" (record_at (process table) 1) = Some (VInt 0) /\
  records (process (with_cell table "Geography" 1 (VStr "France")))
  = records (process table).
Proof.
  assert (Hi : (1 < nrows (process table))%nat) by (simpl; lia).
  assert (NG : cell (getcol table "Geography") 1 <> VStr "Germany")
    by (simpl; discriminate).
  assert (NS : cell (getcol table "Geography") 1 <> VStr "Spain")
    by (simpl; discriminate).
  destruct (batch_geography_other_values (py := runtime) service "http://api"
              table 1%nat wf_table eq_refl Hi NG NS)
    as (Hg & Hs & Hr & _).
  split; [exact wf_table|]. split; [reflexivity|]. split; [exact Hi|].
  split; [exact NG|]. split; [exact NS|].
  split; [exact Hg|]. split; [exact Hs | exact Hr].
Defined.

Lemma runtime_keeps_values : keeps_values runtime.
Proof.
  split.
  - intros col v Hi Hn. simpl. destruct (forallb is_int col); [reflexivity|].
    destruct (numeric col); [|reflexivity].
    destruct v; try reflexivity; [congruence | discriminate].
  - intros col z Hall. simpl. now rewrite Hall.
Qed.

(** Two rows uploaded, two predictions returned. *)
Lemma batch_result_pairs_rows_witness :
  labels table = None /\
  missing_cols (process table) = [] /\
  exists final_df,
    trace (predict_batch (py := runtime) service "http://api" table)
    = [Post "http://api/predict/batch" (Some (VList (records (process table))));
       Success "Processed 2 records.";
       Dataframe final_df;
       DownloadButton "Download Results" final_df "predictions.csv" "text/csv"]
    /\ nrows final_df = 2%nat
    /\ row final_df 1
       = row table 1 ++ [VFloat 0.25%float; VInt 0; VStr "Low"].
Proof.
  split; [reflexivity|]. split; [exact table_complete|].
  destruct (batch_result_pairs_rows (py := runtime) service "http://api" table
              (mkResponse 200 ""
                 (inr (VDict [("predictions",
                               VList (map VDict [prediction_high;
                                                 prediction_low]))])))
              (VDict [("predictions",
                       VList (map VDict [prediction_high; prediction_low]))])
              [prediction_high; prediction_low]
              eq_refl table_complete eq_refl eq_refl eq_refl eq_refl eq_refl
              eq_refl)
    as (final_df & Hrun & Hn & _ & Hrow & Hres & _).
  exists final_df. split; [now rewrite Hrun|]. split; [exact Hn|].
  rewrite Hrow, (Hres 1%nat) by (simpl; lia). reflexivity.
Defined.

(** The request of the upload leaves Surname and Geography out; the table
    shown keeps them. *)
Lemma batch_request_fields_display_columns_witness :
  missing_cols (process table) = [] /\
  (forall i, lookup "Geography" (record_at (process table) i) = None) /\
  (forall i, lookup "Surname" (record_at (process table) i) = None) /\
  exists final_df,
    trace (predict_batch (py := runtime) service "http://api" table)
    = [Post "http://api/predict/batch" (Some (VList (records (process table))));
       Success "Processed 2 records.";
       Dataframe final_df;
       DownloadButton "Download Results" final_df "predictions.csv" "text/csv"]
    /\ columns final_df
       = columns table ++ ["churn_probability"; "prediction"; "risk_level"].
Proof.
  destruct (batch_request_fields_display_columns (py := runtime) service
              "http://api" table table_complete)
    as (_ & _ & _ & _ & Hnone & _ & Hshow).
  split; [exact table_complete|].
  split; [intros i; apply Hnone; simpl; intuition discriminate|].
  split; [intros i; apply Hnone; simpl; intuition discriminate|].
  destruct (Hshow
              (mkResponse 200 ""
                 (inr (VDict [("predictions",
                               VList (map VDict [prediction_high;
                                                 prediction_low]))])))
              (VDict [("predictions",
                       VList (map VDict [prediction_high; prediction_low]))])
              [prediction_high; prediction_low]
              eq_refl eq_refl eq_refl eq_refl eq_refl eq_refl)
    as (final_df & Hrun & Hcols & _).
  exists final_df. split; [exact Hrun|]. rewrite Hcols. reflexivity.
Defined.

(** A run with every button clicked: the GET of the health check is refused,
    the sidebar says so, and the prediction of the POST answered 200 is
    displayed below. *)
Lemma health_result_does_not_affect_flows_witness :
  exists rest,
    trace (app (py := runtime)
             (mkWorld (get_oracle service_unreachable) (post_oracle service))
             page)
    = [Title "🏦 Bank Churn Prediction & Monitoring";
       SidebarHeader "Configuration";
       Get "http://api/health"; SidebarError "API Unreachable ❌";
       Header "Predict Churn for a Single Client";
       Post "http://api/predict" (Some (VDict (payload customer)));
       Subheader "Prediction Result";
       Metric "Churn Probability" (VStr "25.00%");
       Metric "Prediction" (VStr "Stay");
       Metric "Risk Level" (VStr "Low");
       Success "✅ This customer is likely to stay."] ++ rest.
Proof.
  destruct (health_result_does_not_affect_flows (py := runtime) service
              (get_oracle service_unreachable) page)
    as (_ & _ & _ & _ & _ & Hrun).
  destruct (Hrun refused (mkResponse 200 "" (inr (VDict prediction_low)))
              (VFloat 0.25%float) (VInt 0) "Low" "25.00%"
              eq_refl eq_refl eq_refl eq_refl eq_refl eq_refl)
    as (rest & Hrest).
  exists rest. exact Hrest.
Defined.

(** C5 as the specification words it fails: a GET answered 503 shows
    "API Error: 503" in the sidebar, not "API Unreachable". *)
Lemma health_check_503_not_unreachable :
  get_oracle service_unavailable "http://api/health" = inr unavailable /\
  status_code unavailable = 503 /\
  trace (health_check service_unavailable "http://api")
  = [Get "http://api/health"; SidebarError "API Error: 503"] /\
  ~ In (SidebarError "API Unreachable ❌")
       (trace (health_check service_unavailable "http://api")) /\
  ~ (forall (w : World) (url : string) (r : Response),
       get_oracle w (url +++ "/health") = inr r ->
       status_code r <> 200 ->
       In (SidebarError "API Unreachable ❌") (trace (health_check w url))).
Proof.
  assert (Hno : ~ In (SidebarError "API Unreachable ❌")
                    (trace (health_check service_unavailable "http://api")))
    by (simpl; intuition discriminate).
  split; [reflexivity|]. split; [reflexivity|]. split; [reflexivity|].
  split; [exact Hno|].
  intros H. apply Hno.
  apply (H service_unavailable "http://api" unavailable eq_refl).
  discriminate.
Qed.

(** The upload without EstimatedSalary is rejected with that one name, and
    nothing is sent. *)
Lemma batch_rejected_iff_missing_witness :
  trace (predict_batch (py := runtime) service "http://api"
           table_without_salary)
  = [Error "Missing columns in CSV: ['EstimatedSalary']"; Info missing_hint] /\
  network_calls
    (trace (predict_batch (py := runtime) service "http://api"
              table_without_salary)) = [].
Proof.
  destruct (batch_rejected_iff_missing (py := runtime) service "http://api"
              table_without_salary) as (Hrej & Hnet & _).
  assert (Hlacks : exists c, In c required_cols /\
                     ~ In c (columns (process table_without_salary))).
  { exists "EstimatedSalary". split; simpl; intuition discriminate. }
  split.
  - exact (proj1 Hrej Hlacks).
  - exact (proj1 Hnet Hlacks).
Defined.

(** A GET answered 503 is reported with its status code. *)
Lemma health_check_reports_witness :
  trace (health_check service_unavailable "http://api")
  = [Get "http://api/health"; SidebarError "API Error: 503"] /\
  network_calls (trace (health_check service_unavailable "http://api"))
  = [Get "http://api/health"].
Proof.
  destruct (health_check_reports (py := runtime) service_unavailable
              (mkUi "http://api" customer false None false 0.05%float false))
    as (_ & Hcalls & _ & _ & Herr & _).
  split.
  - apply (Herr unavailable eq_refl). discriminate.
  - exact Hcalls.
Defined.

(** A POST answered 503 shows the body; a refused POST shows the message of
    the exception; one call each. *)
Lemma flows_surface_errors_without_retry_witness :
  predict (py := runtime) service_unavailable "http://api" customer
  = ([Post "http://api/predict" (Some (VDict (payload customer)));
      Error "Error: Service Unavailable"], inr tt) /\
  predict_batch (py := runtime) service_unreachable "http://api" table
  = ([Post "http://api/predict/batch" (Some (VList (records (process table))));
      Error "Batch processing failed: Connection refused"], inr tt) /\
  network_calls
    (trace (check_drift (py := runtime) service "http://api" 0.05%float))
  = [Post "http://api/drift/check?threshold=0.05" None].
Proof.
  destruct (flows_surface_errors_without_retry (py := runtime)
              service_unavailable "http://api" customer table 0.05%float)
    as ((Hstatus & _) & _ & _).
  destruct (flows_surface_errors_without_retry (py := runtime)
              service_unreachable "http://api" customer table 0.05%float)
    as (_ & Hbatch & _).
  destruct (Hbatch table_complete) as (_ & Hraised & _).
  destruct (flows_surface_errors_without_retry (py := runtime)
              service "http://api" customer table 0.05%float)
    as (_ & _ & _ & _ & _ & Hcalls & _).
  split; [|split].
  - apply (Hstatus unavailable eq_refl). discriminate.
  - exact (Hraised refused eq_refl).
  - exact Hcalls.
Defined.

(** * The rest of the script *)

Section Script.

Context {py : PyRuntime}.

(** ** One run as a whole *)

Lemma outcome_bind_returned {A B : Type} (m : M A) (k : A -> M B) (a : A) :
  outcome m = inr a -> outcome (bind m k) = outcome (k a).
Proof.
  destruct m as [t r]. simpl. intros ->. unfold bind. now destruct (k a).
Qed.

Lemma calls_bind_returned {A B : Type} (m : M A) (k : A -> M B) (a : A) :
  outcome m = inr a ->
  network_calls (trace (bind m k))
  = network_calls (trace m) ++ network_calls (trace (k a)).
Proof.
  intros Ha. now rewrite (trace_bind_returned m k a Ha), calls_app.
Qed.

Lemma outcome_try_emit (m : M unit) (f : exn -> event) :
  outcome (try_except m (fun e => emit (f e))) = inr tt.
Proof. destruct m as [t [e|[]]]; reflexivity. Qed.

Lemma calls_predict (w : World) (url : string) (i : SingleInputs) :
  network_calls (trace (predict w url i))
  = [Post (url +++ "/predict") (Some (VDict (payload i)))].
Proof.
  apply (post_flow_errors w (url +++ "/predict") (Some (VDict (payload i)))
           (fun response =>
              result <- lift (json response) ;; show_prediction result)
           "Request failed: ").
  intros r. apply quiet_bind; [apply quiet_lift|].
  intros a. apply quiet_show_prediction.
Qed.

Lemma calls_check_drift (w : World) (url : string) (threshold : float) :
  network_calls (trace (check_drift w url threshold))
  = [Post (url +++ "/drift/check?threshold=" +++ str_float threshold) None].
Proof.
  apply (post_flow_errors w
           (url +++ "/drift/check?threshold=" +++ str_float threshold) None
           (fun response => data <- lift (json response) ;; show_drift data)
           "Drift check failed: ").
  intros r. apply quiet_bind; [apply quiet_lift|].
  intros a. apply quiet_show_drift.
Qed.

Lemma calls_predict_batch (w : World) (url : string) (df : DataFrame) :
  network_calls (trace (predict_batch w url df))
  = match missing_cols (process df) with
    | [] => [Post (url +++ "/predict/batch")
                  (Some (VList (records (process df))))]
    | _ :: _ => []
    end.
Proof.
  destruct (missing_cols (process df)) as [|c m] eqn:Hm.
  - unfold predict_batch, predict_batch_try. cbv zeta. rewrite Hm.
    apply (post_flow_errors w (url +++ "/predict/batch")
             (Some (VList (records (process df))))
             (fun response => show_batch df response)
             "Batch processing failed: ").
    intros r. apply quiet_show_batch.
  - rewrite predict_batch_rejected by (rewrite Hm; discriminate).
    reflexivity.
Qed.

Lemma calls_health_check (w : World) (url : string) :
  network_calls (trace (health_check w url)) = [Get (url +++ "/health")].
Proof.
  rewrite health_check_cases.
  destruct (get_oracle w _) as [e|r]; [reflexivity|].
  destruct (status_code r =? 200); reflexivity.
Qed.

Lemma outcome_tab1 (w : World) (ui : Ui) : outcome (tab1 w ui) = inr tt.
Proof.
  unfold tab1. rewrite (outcome_bind_returned (emit _) _ tt) by reflexivity.
  destruct (predict_clicked ui); [apply outcome_try_emit | reflexivity].
Qed.

Lemma outcome_tab3 (w : World) (ui : Ui) : outcome (tab3 w ui) = inr tt.
Proof.
  unfold tab3. rewrite (outcome_bind_returned (emit _) _ tt) by reflexivity.
  rewrite (outcome_bind_returned (emit _) _ tt) by reflexivity.
  destruct (check_drift_clicked ui); [apply outcome_try_emit | reflexivity].
Qed.

Lemma tab2_raises (w : World) (ui : Ui) (e : exn) :
  preview_error ui = Some e ->
  tab2 w ui = ([Header "Batch Prediction via CSV"], inl e).
Proof.
  unfold preview_error, tab2. destruct (uploaded_file ui) as [[e'|df]|].
  - now intros [= ->].
  - intros He. unfold lift, bind at 2. cbn [app].
    unfold st_dataframe. rewrite He. reflexivity.
  - discriminate.
Qed.

Lemma tab2_returns (w : World) (ui : Ui) :
  preview_error ui = None ->
  tab2 w ui =
  match uploaded_file ui with
  | Some (inr df) =>
      (Header "Batch Prediction via CSV"
         :: Dataframe (head df)
         :: trace (if predict_batch_clicked ui
                   then predict_batch w (api_url ui) df
                   else ret tt), inr tt)
  | _ => ([Header "Batch Prediction via CSV"], inr tt)
  end.
Proof.
  unfold preview_error, tab2. destruct (uploaded_file ui) as [[e'|df]|].
  - discriminate.
  - intros He. unfold lift, bind at 2. cbn [app].
    unfold st_dataframe. rewrite He.
    destruct (predict_batch_clicked ui); [|reflexivity].
    assert (Ho : outcome (predict_batch w (api_url ui) df) = inr tt)
      by apply outcome_try_emit.
    destruct (predict_batch w (api_url ui) df) as [t o].
    unfold outcome in Ho. cbn [snd] in Ho. subst o. reflexivity.
  - reflexivity.
Qed.

Lemma app_outcome_cases (w : World) (ui : Ui) :
  (forall e, preview_error ui = Some e -> outcome (app w ui) = inl e) /\
  (preview_error ui = None -> outcome (app w ui) = inr tt).
Proof.
  assert (H : outcome (app w ui)
              = match preview_error ui with
                | Some e => inl e
                | None => inr tt
                end).
  { unfold app.
    rewrite (outcome_bind_returned (emit _) _ tt) by reflexivity.
    rewrite (outcome_bind_returned (emit _) _ tt) by reflexivity.
    rewrite (outcome_bind_returned (health_check w (api_url ui)) _ tt)
      by now rewrite health_check_cases.
    rewrite (outcome_bind_returned (tab1 w ui) _ tt) by apply outcome_tab1.
    destruct (preview_error ui) as [e|] eqn:He.
    - rewrite (tab2_raises w ui e He). reflexivity.
    - rewrite (outcome_bind_returned (tab2 w ui) _ tt).
      + apply outcome_tab3.
      + rewrite (tab2_returns w ui He).
        destruct (uploaded_file ui) as [[e'|df]|]; reflexivity. }
  split.
  - intros e He. now rewrite H, He.
  - intros He. now rewrite H, He.
Qed.

(** X1. A run of the script can end in an exception only at lines 104 and
    105, which no [try] encloses: when [pd.read_csv] raises on the upload or
    [st.dataframe] raises on its preview, that exception ends the run.  In
    every other run the script reaches its last line, for the health check
    and the three handlers catch whatever their [try] suite raises. *)
Theorem app_raises_only_at_upload (w : World) (ui : Ui) :
  outcome (health_check w (api_url ui)) = inr tt /\
  outcome (predict w (api_url ui) (inputs ui)) = inr tt /\
  (forall df, outcome (predict_batch w (api_url ui) df) = inr tt) /\
  outcome (check_drift w (api_url ui) (threshold ui)) = inr tt /\
  outcome (app w ui)
  = match preview_error ui with
    | Some e => inl e
    | None => inr tt
    end.
Proof.
  split; [now rewrite health_check_cases|].
  split; [apply outcome_try_emit|].
  split; [intros df; apply outcome_try_emit|].
  split; [apply outcome_try_emit|].
  destruct (app_outcome_cases w ui) as [Hraise Hret].
  destruct (preview_error ui) as [e|]; [now apply Hraise | now apply Hret].
Qed.

(** X2. The calls a run makes through [requests], in order: one GET of
    [/health]; one POST to [/predict] with the payload when Predict is
    clicked; then, unless line 104 or 105 ended the run, one POST to
    [/predict/batch] with the records when Predict Batch is clicked on an
    upload that lacks no required column, and one POST to [/drift/check] with
    the threshold in the query string and no body when Check Drift is
    clicked.  There is no other call, and each URL is the page's API URL
    followed by the path. *)
Theorem app_network_calls (w : World) (ui : Ui) :
  let url := api_url ui in
  network_calls (trace (app w ui)) =
  [Get (url +++ "/health")]
  ++ (if predict_clicked ui
      then [Post (url +++ "/predict") (Some (VDict (payload (inputs ui))))]
      else [])
  ++ match preview_error ui with
     | Some _ => []
     | None =>
         match uploaded_file ui with
         | Some (inr df) =>
             if predict_batch_clicked ui
             then match missing_cols (process df) with
                  | [] => [Post (url +++ "/predict/batch")
                                (Some (VList (records (process df))))]
                  | _ :: _ => []
                  end
             else []
         | _ => []
         end
         ++ (if check_drift_clicked ui
             then [Post (url +++ "/drift/check?threshold="
                             +++ str_float (threshold ui)) None]
             else [])
     end.
Proof.
  cbv zeta. rewrite trace_app, !calls_app, calls_health_check.
  change (network_calls [Title "🏦 Bank Churn Prediction & Monitoring";
                         SidebarHeader "Configuration"])
    with (@nil event).
  rewrite app_nil_l. f_equal.
  rewrite (calls_bind_returned (tab1 w ui) _ tt) by apply outcome_tab1.
  f_equal.
  - unfold tab1.
    rewrite (calls_bind_returned (emit _) _ tt) by reflexivity.
    rewrite app_nil_l.
    destruct (predict_clicked ui); [apply calls_predict | reflexivity].
  - destruct (preview_error ui) as [e|] eqn:He.
    + unfold bind. rewrite (tab2_raises w ui e He). reflexivity.
    + rewrite (calls_bind_returned (tab2 w ui) _ tt).
      2:{ rewrite (tab2_returns w ui He).
          destruct (uploaded_file ui) as [[e'|df]|]; reflexivity. }
      f_equal.
      * rewrite (tab2_returns w ui He).
        destruct (uploaded_file ui) as [[e'|df]|]; try reflexivity.
        unfold trace at 1. cbn [fst network_calls filter is_call].
        destruct (predict_batch_clicked ui);
          [apply calls_predict_batch | reflexivity].
      * unfold tab3.
        rewrite (calls_bind_returned (emit _) _ tt) by reflexivity.
        rewrite app_nil_l.
        rewrite (calls_bind_returned (emit _) _ tt) by reflexivity.
        rewrite app_nil_l.
        destruct (check_drift_clicked ui);
          [apply calls_check_drift | reflexivity].
Qed.

(** ** Preparation of the uploaded table *)

Lemma wf_setitem df c v :
  wf_df df -> List.length v = nrows df -> wf_df (setitem df c v).
Proof.
  unfold wf_df, setitem. intros Hwf Hv.
  destruct (has_col df c); simpl.
  - rewrite Forall_forall in *. intros kv Hin. apply in_map_iff in Hin.
    destruct Hin as [kv' [<- Hin]]. unfold overwrite.
    destruct (String.eqb (fst kv') c); [exact Hv | exact (Hwf _ Hin)].
  - apply Forall_app. split; [exact Hwf|]. constructor; [exact Hv|constructor].
Qed.

Lemma length_indicator col s : List.length (indicator col s) = List.length col.
Proof. unfold indicator. apply length_map. Qed.

Lemma wf_process df : wf_df df -> wf_df (process df).
Proof.
  intros Hwf. unfold process. destruct (has_col df "Geography") eqn:Hg;
    [|exact Hwf].
  cbv zeta.
  assert (Hwf1 : wf_df (setitem df "Geography_Germany"
                          (indicator (getcol df "Geography") "Germany"))).
  { apply wf_setitem; [exact Hwf|].
    now rewrite length_indicator, (wf_getcol df _ Hwf Hg). }
  apply wf_setitem; [exact Hwf1|].
  rewrite length_indicator, nrows_setitem.
  rewrite getcol_setitem_other by discriminate.
  apply (wf_getcol df _ Hwf Hg).
Qed.

Lemma columns_process df :
  columns (process df) =
  if has_col df "Geography"
  then columns df
       ++ (if has_col df "Geography_Germany" then [] else ["Geography_Germany"])
       ++ (if has_col df "Geography_Spain" then [] else ["Geography_Spain"])
  else columns df.
Proof.
  unfold process. destruct (has_col df "Geography"); [|reflexivity].
  cbv zeta. rewrite columns_setitem, has_col_setitem, columns_setitem.
  change (String.eqb "Geography_Spain" "Geography_Germany") with false.
  rewrite orb_false_r.
  destruct (has_col df "Geography_Germany"), (has_col df "Geography_Spain");
    rewrite ?app_nil_r, <- ?app_assoc; reflexivity.
Qed.

(** X3. Preparing the upload keeps its rows and its columns: the processed
    table has as many rows, every column other than the two flags holds what
    it held, the column names are those of the upload followed by the flags
    that were not there, and a rectangular table stays rectangular.  An
    upload without a Geography column is not changed at all. *)
Theorem process_keeps_table (df : DataFrame) :
  nrows (process df) = nrows df /\
  (forall c, c <> "Geography_Germany" -> c <> "Geography_Spain" ->
     getcol (process df) c = getcol df c) /\
  (forall c, In c (columns df) -> In c (columns (process df))) /\
  (has_col df "Geography" = true ->
   columns (process df) =
   columns df
   ++ (if has_col df "Geography_Germany" then [] else ["Geography_Germany"])
   ++ (if has_col df "Geography_Spain" then [] else ["Geography_Spain"])) /\
  (has_col df "Geography" = false -> process df = df) /\
  (wf_df df -> wf_df (process df)).
Proof.
  split; [apply nrows_process|].
  split; [intros c; apply getcol_process_other|].
  split.
  { intros c Hin. rewrite columns_process.
    destruct (has_col df "Geography"); [|exact Hin].
    apply in_or_app. now left. }
  split; [intros Hg; now rewrite columns_process, Hg|].
  split; [intros Hg; unfold process; now rewrite Hg|].
  apply wf_process.
Qed.

Lemma overwrite_absent c v l :
  ~ In c (map fst l) -> map (overwrite c v) l = l.
Proof.
  induction l as [|[k a] l IH]; simpl; [reflexivity|].
  intros Hn. unfold overwrite at 1. simpl.
  destruct (String.eqb_spec k c) as [->|_]; [exfalso; apply Hn; now left|].
  f_equal. apply IH. tauto.
Qed.

Lemma overwrite_twice c v kv : overwrite c v (overwrite c v kv) = overwrite c v kv.
Proof.
  unfold overwrite. destruct (String.eqb (fst kv) c) eqn:E; simpl.
  - now rewrite String.eqb_refl.
  - now rewrite E.
Qed.

Lemma overwrite_comm c v c' v' kv :
  c <> c' ->
  overwrite c v (overwrite c' v' kv) = overwrite c' v' (overwrite c v kv).
Proof.
  intros Hne. unfold overwrite.
  destruct (String.eqb_spec (fst kv) c') as [E'|N'];
    destruct (String.eqb_spec (fst kv) c) as [E|N]; simpl;
    repeat match goal with
           | |- context [String.eqb ?a ?b] => destruct (String.eqb_spec a b)
           end; congruence.
Qed.

(** The columns named [c] of a table all hold [v]. *)
Lemma settled_setitem df c v :
  map (overwrite c v) (cols (setitem df c v)) = cols (setitem df c v).
Proof.
  unfold setitem. destruct (has_col df c) eqn:Hc; simpl.
  - rewrite map_map. apply map_ext. intros kv. apply overwrite_twice.
  - apply has_col_not_In in Hc. rewrite map_app.
    rewrite (overwrite_absent c v (cols df) Hc). simpl.
    unfold overwrite. simpl. now rewrite String.eqb_refl.
Qed.

Lemma settled_setitem_other df c v c' v' :
  c <> c' ->
  map (overwrite c v) (cols df) = cols df ->
  map (overwrite c v) (cols (setitem df c' v')) = cols (setitem df c' v').
Proof.
  intros Hne Hs. unfold setitem. destruct (has_col df c'); simpl.
  - rewrite map_map.
    rewrite (map_ext _ (fun kv => overwrite c' v' (overwrite c v kv)))
      by (intros kv; now apply overwrite_comm).
    rewrite <- (map_map (overwrite c v) (overwrite c' v')). now rewrite Hs.
  - rewrite map_app, Hs. simpl. unfold overwrite at 1. simpl.
    destruct (String.eqb_spec c' c); [congruence | reflexivity].
Qed.

Lemma setitem_settled df c v :
  has_col df c = true ->
  map (overwrite c v) (cols df) = cols df ->
  setitem df c v = df.
Proof.
  intros Hc Hs. unfold setitem. rewrite Hc, Hs. now destruct df.
Qed.

(** X4. Preparing a table that is already prepared changes nothing. *)
Theorem process_idempotent (df : DataFrame) :
  process (process df) = process df.
Proof.
  destruct (has_col df "Geography") eqn:Hg.
  - assert (Hg' : has_col (process df) "Geography" = true)
      by (rewrite has_col_process, Hg; reflexivity).
    destruct (process_geography df Hg) as [HG HS].
    assert (Hgeo : getcol (process df) "Geography" = getcol df "Geography")
      by (apply getcol_process_other; discriminate).
    unfold process at 1. rewrite Hg'. cbv zeta.
    rewrite Hgeo.
    set (vg := indicator (getcol df "Geography") "Germany") in *.
    set (vs := indicator (getcol df "Geography") "Spain") in *.
    assert (Hp : process df
                 = setitem (setitem df "Geography_Germany" vg)
                     "Geography_Spain" vs).
    { unfold process. rewrite Hg. cbv zeta.
      now rewrite getcol_setitem_other by discriminate. }
    assert (H1 : setitem (process df) "Geography_Germany" vg = process df).
    { apply setitem_settled.
      - rewrite has_col_process, Hg. simpl. apply orb_true_r.
      - rewrite Hp. apply settled_setitem_other; [discriminate|].
        apply settled_setitem. }
    rewrite H1, Hgeo. fold vs.
    apply setitem_settled.
    + rewrite has_col_process, Hg. simpl. apply orb_true_r.
    + rewrite Hp. apply settled_setitem.
  - unfold process at 2. rewrite Hg. unfold process. now rewrite Hg.
Qed.

(** ** Validation looks at column names only *)

Lemma has_col_columns (a b : DataFrame) (c : string) :
  columns a = columns b -> has_col a c = has_col b c.
Proof. intros E. unfold has_col. now rewrite E. Qed.

(** X5. Which columns are reported missing depends on the names of the
    uploaded columns alone, never on a cell or on the number of rows.  With a
    Geography column the two flags are never reported and the report is the
    absent ones among the eight other fields; without it the upload is
    checked as it stands. *)
Theorem missing_cols_by_names (df : DataFrame) :
  (forall df', columns df' = columns df ->
     missing_cols (process df') = missing_cols (process df)) /\
  (has_col df "Geography" = true ->
   missing_cols (process df)
   = filter (fun c => negb (has_col df c))
       ["CreditScore"; "Age"; "Tenure"; "Balance"; "NumOfProducts";
        "HasCrCard"; "IsActiveMember"; "EstimatedSalary"]) /\
  (has_col df "Geography" = false ->
   missing_cols (process df) = missing_cols df).
Proof.
  split; [|split].
  - intros df' E. unfold missing_cols. apply filter_ext. intros c.
    rewrite !has_col_process.
    now rewrite (has_col_columns df' df c E),
                (has_col_columns df' df "Geography" E).
  - intros Hg. unfold missing_cols, required_cols.
    cbn [filter]. rewrite !has_col_process, Hg. cbn.
    rewrite !orb_false_r, !orb_true_r. reflexivity.
  - intros Hg. unfold process. now rewrite Hg.
Qed.

(** ** The two flows encode a customer alike *)

(** X6. A row of an upload with a Geography column gives, in the batch
    request, the record that the single-prediction form posts for the same
    customer: the same ten fields in the same order, the same values, the same
    two flags. *)
Theorem batch_record_is_single_payload
    (df : DataFrame) (i : nat) (inp : SingleInputs) :
  wf_df df -> has_col df "Geography" = true -> (i < nrows df)%nat ->
  cell (getcol df "CreditScore") i = VInt (credit_score inp) ->
  cell (getcol df "Age") i = VInt (age inp) ->
  cell (getcol df "Tenure") i = VInt (tenure inp) ->
  cell (getcol df "Balance") i = VFloat (balance inp) ->
  cell (getcol df "NumOfProducts") i = VInt (num_of_products inp) ->
  cell (getcol df "HasCrCard") i = VInt (has_cr_card inp) ->
  cell (getcol df "IsActiveMember") i = VInt (is_active_member inp) ->
  cell (getcol df "EstimatedSalary") i = VFloat (estimated_salary inp) ->
  cell (getcol df "Geography") i = VStr (geography inp) ->
  record_at (process df) i = payload inp /\
  nth i (records (process df)) VNone = VDict (payload inp).
Proof.
  intros Hwf Hg Hi H1 H2 H3 H4 H5 H6 H7 H8 H9.
  assert (Hrec : record_at (process df) i = payload inp).
  { destruct (process_geography df Hg) as [HG HS].
    assert (Hlen : (i < List.length (getcol df "Geography"))%nat)
      by now rewrite (wf_getcol df _ Hwf Hg).
    unfold record_at, required_cols, payload. cbn [map].
    rewrite !getcol_process_other by discriminate.
    rewrite HG, HS, !(cell_indicator _ _ _ Hlen).
    rewrite H1, H2, H3, H4, H5, H6, H7, H8, H9.
    unfold astype_int, eq_str, geo_germany, geo_spain.
    reflexivity. }
  split; [exact Hrec|].
  rewrite records_nth by now rewrite nrows_process.
  now rewrite Hrec.
Qed.

(** ** Uploads without rows, and answers of another length *)

(** X7. An upload with the required columns and no row is not held back: the
    handler posts an empty list, and an answer of no prediction is reported
    as zero records processed; over the default row labels the table without
    rows follows, or the error when Streamlit refuses that table. *)
Theorem batch_empty_upload (w : World) (url : string) (df : DataFrame) :
  missing_cols (process df) = [] -> nrows df = 0%nat ->
  records (process df) = [] /\
  (exists t, trace (predict_batch w url df)
             = Post (url +++ "/predict/batch") (Some (VList [])) :: t) /\
  (forall resp body,
     labels df = None ->
     post_oracle w (url +++ "/predict/batch") (Some (VList [])) = inr resp ->
     status_code resp = 200 ->
     json resp = inr body ->
     getitem body "predictions" = inr (VList []) ->
     trace (predict_batch w url df)
     = match not_shown (mkDataFrame 0 (cols df)) with
       | None =>
           [Post (url +++ "/predict/batch") (Some (VList []));
            Success "Processed 0 records.";
            Dataframe (mkDataFrame 0 (cols df));
            DownloadButton "Download Results" (mkDataFrame 0 (cols df))
              "predictions.csv" "text/csv"]
       | Some e =>
           [Post (url +++ "/predict/batch") (Some (VList []));
            Success "Processed 0 records.";
            Error ("Batch processing failed: " +++ exn_str e)]
       end).
Proof.
  intros Hm Hn.
  assert (Hr : records (process df) = []).
  { rewrite records_map, nrows_process, Hn. reflexivity. }
  split; [exact Hr|]. split.
  - rewrite <- Hr. now apply trace_predict_batch_submits.
  - intros resp body Hl Hpost Hs Hj Hp. rewrite <- Hr in Hpost.
    rewrite (predict_batch_ok w url df resp body [] Hl Hm Hpost Hs Hj Hp).
    rewrite Hr. cbv zeta.
    assert (Hc : concat_default df (frame_of_records [])
                 = mkDataFrame 0 (cols df)).
    { rewrite concat_same_rows by (simpl; lia).
      rewrite Hn. simpl. now rewrite app_nil_r. }
    rewrite Hc.
    destruct (not_shown (mkDataFrame 0 (cols df))); reflexivity.
Qed.

Lemma length_infer_dtype col : List.length (infer_dtype col) = List.length col.
Proof. unfold infer_dtype. apply length_map. Qed.

Lemma wf_frame_of_records rs : wf_df (frame_of_records rs).
Proof.
  unfold wf_df, frame_of_records. simpl. rewrite Forall_forall.
  intros kv Hin. apply in_map_iff in Hin. destruct Hin as [k [<- _]].
  simpl. now rewrite length_infer_dtype, length_map.
Qed.

Lemma length_reindex_pad n col :
  (List.length col <= n)%nat -> List.length (reindex_pad n col) = n.
Proof.
  intros Hle. unfold reindex_pad.
  rewrite length_app, length_map, repeat_length. lia.
Qed.

Lemma cell_reindex_pad_beyond n col i :
  (List.length col <= i)%nat -> cell (reindex_pad n col) i = NaN.
Proof.
  intros Hle. unfold cell, reindex_pad.
  rewrite app_nth2 by now rewrite length_map.
  apply nth_repeat.
Qed.

Lemma wf_reindex n df :
  wf_df df -> (nrows df <= n)%nat ->
  Forall (fun kv => List.length (snd kv) = n) (reindex n df).
Proof.
  intros Hwf Hle. unfold reindex.
  destruct (Nat.eqb_spec (nrows df) n) as [<-|Hne]; [exact Hwf|].
  unfold wf_df in Hwf. rewrite Forall_forall in *.
  intros kv Hin. apply in_map_iff in Hin. destruct Hin as [kv' [<- Hin]].
  simpl. apply length_reindex_pad. rewrite (Hwf _ Hin). exact Hle.
Qed.

Lemma lookup_map_snd {A B : Type} (f : A -> B) (k : string)
    (l : list (string * A)) :
  lookup k (map (fun kv => (fst kv, f (snd kv))) l)
  = option_map f (lookup k l).
Proof.
  induction l as [|[k' a] l IH]; simpl; [reflexivity|].
  destruct (String.eqb k k'); [reflexivity | exact IH].
Qed.

Lemma wf_concat a b : wf_df a -> wf_df b -> wf_df (concat_default a b).
Proof.
  intros Ha Hb. unfold wf_df, concat_default. simpl.
  apply Forall_app. split; apply wf_reindex; auto; lia.
Qed.

(** X8. The handler does not compare the number of predictions with the
    number of uploaded rows.  Over the default row labels, when Streamlit
    shows the combined table, the message counts the predictions; the table
    has as many rows as the longer of the two and stays rectangular; where
    predictions run out the prediction columns hold NaN, and where uploaded
    rows run out the uploaded columns hold NaN. *)
Theorem batch_answer_of_other_length (w : World) (url : string)
    (df : DataFrame) (resp : Response) (body : value)
    (rs : list (list (string * value))) :
  labels df = None ->
  missing_cols (process df) = [] ->
  post_oracle w (url +++ "/predict/batch")
              (Some (VList (records (process df)))) = inr resp ->
  status_code resp = 200 ->
  json resp = inr body ->
  getitem body "predictions" = inr (VList (map VDict rs)) ->
  not_shown (concat_default df (frame_of_records rs)) = None ->
  let n := nrows df in
  let m := List.length rs in
  let final_df := concat_default df (frame_of_records rs) in
  trace (predict_batch w url df) =
  [Post (url +++ "/predict/batch") (Some (VList (records (process df))));
   Success ("Processed " +++ str_nat m +++ " records.");
   Dataframe final_df;
   DownloadButton "Download Results" final_df "predictions.csv" "text/csv"] /\
  nrows final_df = Nat.max n m /\
  (wf_df df -> wf_df final_df) /\
  ((m < n)%nat -> forall i, (m <= i)%nat ->
     row final_df i = row df i ++ repeat NaN (List.length (keys_union rs))) /\
  ((n < m)%nat -> wf_df df -> forall i, (n <= i)%nat ->
     row final_df i
     = repeat NaN (List.length (cols df)) ++ row (frame_of_records rs) i) /\
  ((n < m)%nat -> wf_df df -> forall i k col, (i < n)%nat ->
     lookup k (cols df) = Some col ->
     cell (getcol final_df k) i = nan_cast col (cell col i)).
Proof.
  intros Hl Hm Hpost Hs Hj Hp Hshown n m final_df.
  split.
  { rewrite (predict_batch_ok w url df resp body rs Hl Hm Hpost Hs Hj Hp).
    cbv zeta. now rewrite Hshown. }
  split; [reflexivity|].
  split.
  { intros Hwf. apply wf_concat; [exact Hwf | apply wf_frame_of_records]. }
  split; [|split].
  - intros Hlt i Hi. unfold final_df.
    rewrite concat_not_longer by (simpl; fold m n; lia).
    unfold row. simpl cols. rewrite map_app. f_equal.
    unfold reindex. simpl nrows. fold m n.
    destruct (Nat.eqb_spec m n) as [E|_]; [lia|].
    unfold frame_of_records. simpl cols. rewrite !map_map. simpl.
    rewrite <- map_const. apply map_ext. intros k.
    apply cell_reindex_pad_beyond.
    now rewrite length_infer_dtype, length_map.
  - intros Hlt Hwf i Hi. unfold final_df, concat_default.
    simpl nrows. fold m n. rewrite Nat.max_r by lia.
    unfold row. simpl cols. rewrite map_app. f_equal.
    + unfold reindex. fold n. destruct (Nat.eqb_spec n m) as [E|_]; [lia|].
      rewrite map_map. simpl. rewrite <- map_const.
      apply map_ext_in. intros kv Hin. apply cell_reindex_pad_beyond.
      unfold wf_df in Hwf. rewrite Forall_forall in Hwf.
      rewrite (Hwf _ Hin). exact Hi.
    + unfold reindex. simpl nrows. fold m. now rewrite Nat.eqb_refl.
  - intros Hlt Hwf i k col Hi Hk. unfold final_df, concat_default, getcol.
    simpl nrows. fold m n. rewrite Nat.max_r by lia. simpl cols.
    unfold reindex at 1. fold n.
    destruct (Nat.eqb_spec n m) as [E|_]; [lia|].
    rewrite lookup_app.
    rewrite (lookup_map_snd (reindex_pad m) k (cols df)), Hk. simpl.
    assert (Hlen : List.length col = n).
    { apply lookup_In in Hk. unfold wf_df in Hwf.
      rewrite Forall_forall in Hwf. exact (Hwf _ Hk). }
    unfold cell, reindex_pad.
    rewrite app_nth1 by (rewrite length_map; lia).
    rewrite (nth_indep _ NaN (nan_cast col NaN))
      by (rewrite length_map; lia).
    now rewrite (map_nth (nan_cast col)).
Qed.

(** ** Answers with status 200 that are not what the script expects *)

Lemma predict_200 (w : World) (url : string) (i : SingleInputs)
    (resp : Response) :
  post_oracle w (url +++ "/predict") (Some (VDict (payload i))) = inr resp ->
  status_code resp = 200 ->
  predict w url i =
  let (t, r) :=
    try_except (result <- lift (json resp) ;; show_prediction result)
      (fun e => emit (Error ("Request failed: " +++ exn_str e)))
  in (Post (url +++ "/predict") (Some (VDict (payload i))) :: t, r).
Proof.
  intros Hpost Hs. unfold predict, predict_try.
  rewrite try_except_post, Hpost, Hs. reflexivity.
Qed.

Lemma check_drift_200 (w : World) (url : string) (threshold : float)
    (resp : Response) :
  post_oracle w (url +++ "/drift/check?threshold=" +++ str_float threshold)
              None = inr resp ->
  status_code resp = 200 ->
  check_drift w url threshold =
  let (t, r) :=
    try_except (data <- lift (json resp) ;; show_drift data)
      (fun e => emit (Error ("Drift check failed: " +++ exn_str e)))
  in (Post (url +++ "/drift/check?threshold=" +++ str_float threshold) None
        :: t, r).
Proof.
  intros Hpost Hs. unfold check_drift, check_drift_try.
  rewrite try_except_post, Hpost, Hs. reflexivity.
Qed.

(** X9. Single prediction, status 200, body not as expected.  A body that is
    not JSON shows only the error.  An object that lacks a field shows the
    sub-header and the metrics of the fields read before it, then "Request
    failed: " with the quoted name of the field; the closing banner is not
    shown. *)
Theorem predict_answer_lacking_a_field (w : World) (url : string)
    (i : SingleInputs) (resp : Response) :
  post_oracle w (url +++ "/predict") (Some (VDict (payload i))) = inr resp ->
  status_code resp = 200 ->
  let sent := Post (url +++ "/predict") (Some (VDict (payload i))) in
  (forall e, json resp = inl e ->
     predict w url i
     = ([sent; Error ("Request failed: " +++ exn_str e)], inr tt)) /\
  (forall d, json resp = inr (VDict d) ->
     lookup "churn_probability" d = None ->
     predict w url i
     = ([sent; Subheader "Prediction Result";
         Error "Request failed: 'churn_probability'"], inr tt)) /\
  (forall d p s, json resp = inr (VDict d) ->
     lookup "churn_probability" d = Some p -> format_pct p = inr s ->
     lookup "prediction" d = None ->
     predict w url i
     = ([sent; Subheader "Prediction Result";
         Metric "Churn Probability" (VStr s);
         Error "Request failed: 'prediction'"], inr tt)) /\
  (forall d p s c, json resp = inr (VDict d) ->
     lookup "churn_probability" d = Some p -> format_pct p = inr s ->
     lookup "prediction" d = Some c ->
     lookup "risk_level" d = None ->
     predict w url i
     = ([sent; Subheader "Prediction Result";
         Metric "Churn Probability" (VStr s);
         Metric "Prediction" (VStr (if eq_one c then "Churn" else "Stay"));
         Error "Request failed: 'risk_level'"], inr tt)).
Proof.
  intros Hpost Hs sent. unfold sent.
  rewrite (predict_200 w url i resp Hpost Hs).
  split; [|split; [|split]].
  - intros e Hj. rewrite Hj. reflexivity.
  - intros d Hj H1. rewrite Hj. unfold show_prediction, getitem.
    cbn. rewrite H1. reflexivity.
  - intros d p s Hj H1 Hf H2. rewrite Hj. unfold show_prediction, getitem.
    cbn. rewrite H1. cbn. rewrite Hf. cbn. rewrite H2. reflexivity.
  - intros d p s c Hj H1 Hf H2 H3. rewrite Hj.
    unfold show_prediction, getitem.
    cbn. rewrite H1. cbn. rewrite Hf. cbn. rewrite H2. cbn. rewrite H3.
    reflexivity.
Qed.

(** X10. Batch prediction, status 200, body not as expected: a body that is
    not JSON, or an object without "predictions", shows the error after the
    POST and neither a table nor a download. *)
Theorem batch_answer_without_predictions (w : World) (url : string)
    (df : DataFrame) (resp : Response) :
  missing_cols (process df) = [] ->
  post_oracle w (url +++ "/predict/batch")
              (Some (VList (records (process df)))) = inr resp ->
  status_code resp = 200 ->
  let sent := Post (url +++ "/predict/batch")
                   (Some (VList (records (process df)))) in
  (forall e, json resp = inl e ->
     predict_batch w url df
     = ([sent; Error ("Batch processing failed: " +++ exn_str e)], inr tt)) /\
  (forall d, json resp = inr (VDict d) -> lookup "predictions" d = None ->
     predict_batch w url df
     = ([sent; Error "Batch processing failed: 'predictions'"], inr tt)).
Proof.
  intros Hm Hpost Hs sent. unfold sent.
  rewrite (predict_batch_submits w url df Hm). cbv zeta.
  rewrite Hpost, Hs. simpl Z.eqb. cbv iota. split.
  - intros e Hj. unfold show_batch. rewrite Hj. reflexivity.
  - intros d Hj H1. unfold show_batch, getitem. rewrite Hj. cbn.
    rewrite H1. reflexivity.
Qed.

(** X11. Drift check answered 200 with the two counts: both are shown as
    metrics, then the warning when the number of drifted features is above
    zero and the success message when it is zero or below. *)
Theorem check_drift_report (w : World) (url : string) (threshold : float)
    (resp : Response) (d : list (string * value)) (a k : Z) :
  post_oracle w (url +++ "/drift/check?threshold=" +++ str_float threshold)
              None = inr resp ->
  status_code resp = 200 ->
  json resp = inr (VDict d) ->
  lookup "features_analyzed" d = Some (VInt a) ->
  lookup "features_drifted" d = Some (VInt k) ->
  check_drift w url threshold =
  ([Post (url +++ "/drift/check?threshold=" +++ str_float threshold) None;
    Metric "Features Analyzed" (VInt a);
    Metric "Features with Drift" (VInt k);
    if 0 <? k then Warning "⚠️ Data Drift Detected!"
    else Success "✅ No Data Drift Detected."], inr tt).
Proof.
  intros Hpost Hs Hj Ha Hk.
  rewrite (check_drift_200 w url threshold resp Hpost Hs), Hj.
  unfold show_drift, getitem. cbn. rewrite Ha. cbn. rewrite Hk. cbn.
  destruct (0 <? k); reflexivity.
Qed.

(** X12. Drift check answered 200 with an object that lacks a count: without
    "features_analyzed" only the error is shown; with it but without
    "features_drifted" the first metric is shown and then the error. *)
Theorem check_drift_answer_lacking_a_count (w : World) (url : string)
    (threshold : float) (resp : Response) (d : list (string * value)) :
  post_oracle w (url +++ "/drift/check?threshold=" +++ str_float threshold)
              None = inr resp ->
  status_code resp = 200 ->
  json resp = inr (VDict d) ->
  let sent :=
    Post (url +++ "/drift/check?threshold=" +++ str_float threshold) None in
  (lookup "features_analyzed" d = None ->
   check_drift w url threshold
   = ([sent; Error "Drift check failed: 'features_analyzed'"], inr tt)) /\
  (forall a : Z, lookup "features_analyzed" d = Some (VInt a) ->
     lookup "features_drifted" d = None ->
     check_drift w url threshold
     = ([sent; Metric "Features Analyzed" (VInt a);
         Error "Drift check failed: 'features_drifted'"], inr tt)).
Proof.
  intros Hpost Hs Hj sent. unfold sent.
  rewrite (check_drift_200 w url threshold resp Hpost Hs), Hj. split.
  - intros Ha. unfold show_drift, getitem. cbn. rewrite Ha. reflexivity.
  - intros a Ha Hk. unfold show_drift, getitem. cbn. rewrite Ha. cbn.
    rewrite Hk. reflexivity.
Qed.

(** ** The preview of the upload *)

Lemma cell_firstn (col : list value) (k i : nat) :
  (i < k)%nat -> cell (firstn k col) i = cell col i.
Proof.
  intros Hi. unfold cell. revert k i Hi.
  induction col as [|x col IH]; intros k i Hi.
  - now rewrite firstn_nil.
  - destruct k as [|k]; [lia|]. destruct i as [|i]; simpl; [reflexivity|].
    apply IH. lia.
Qed.

(** X13. The upload is read and previewed outside every [try].  When
    [pd.read_csv] raises on it, or [st.dataframe] raises on its preview, the
    run ends there: the batch tab shows its header only, and nothing of the
    drift tab is shown or sent, even with Check Drift clicked.  Otherwise the
    first five rows are shown, with every column, before any validation and
    whether or not Predict Batch is clicked. *)
Theorem upload_read_and_previewed_unguarded (w : World) (ui : Ui) :
  let top := [Title "🏦 Bank Churn Prediction & Monitoring";
              SidebarHeader "Configuration"] in
  (forall e, preview_error ui = Some e ->
     tab2 w ui = ([Header "Batch Prediction via CSV"], inl e) /\
     app w ui
     = (top ++ trace (health_check w (api_url ui)) ++ trace (tab1 w ui)
            ++ [Header "Batch Prediction via CSV"], inl e)) /\
  (forall df, uploaded_file ui = Some (inr df) ->
     not_shown (head df) = None ->
     trace (tab2 w ui)
     = Header "Batch Prediction via CSV"
         :: Dataframe (head df)
         :: trace (if predict_batch_clicked ui
                   then predict_batch w (api_url ui) df
                   else ret tt) /\
     nrows (head df) = Nat.min 5 (nrows df) /\
     columns (head df) = columns df /\
     (forall i, (i < 5)%nat -> row (head df) i = row df i)) /\
  (uploaded_file ui = None ->
   tab2 w ui = ([Header "Batch Prediction via CSV"], inr tt)).
Proof.
  cbv zeta. split; [|split].
  - intros e He. split; [exact (tab2_raises w ui e He)|].
    assert (Ht : trace (app w ui)
                 = [Title "🏦 Bank Churn Prediction & Monitoring";
                    SidebarHeader "Configuration"]
                   ++ trace (health_check w (api_url ui))
                   ++ trace (tab1 w ui)
                   ++ [Header "Batch Prediction via CSV"]).
    { rewrite trace_app. do 2 f_equal.
      rewrite (trace_bind_returned (tab1 w ui) _ tt) by apply outcome_tab1.
      f_equal. unfold bind. now rewrite (tab2_raises w ui e He). }
    assert (Ho : outcome (app w ui) = inl e).
    { destruct (app_outcome_cases w ui) as [Hcase _].
      exact (Hcase e He). }
    destruct (app w ui) as [t o]. unfold trace, outcome in *.
    cbn [fst snd] in *. now subst.
  - intros df Hu Hs.
    assert (He : preview_error ui = None)
      by (unfold preview_error; now rewrite Hu).
    rewrite (tab2_returns w ui He), Hu.
    split; [reflexivity|]. split; [reflexivity|]. split.
    + unfold columns, head. simpl. rewrite map_map. reflexivity.
    + intros i Hi. unfold row, head. cbn [cols]. rewrite map_map.
      apply map_ext. intros kv. cbn [snd]. now apply cell_firstn.
  - intros Hu. unfold tab2. now rewrite Hu.
Qed.

End Script.

(** ** Further scenarios *)

Module Edge.

(** The upload of one row that holds the customer of the form. *)
Definition customer_table : DataFrame :=
  mkDataFrame 1
    [("CreditScore", [VInt 650]); ("Geography", [VStr "France"]);
     ("Age", [VInt 35]); ("Tenure", [VInt 5]);
     ("Balance", [VFloat 50000%float]); ("NumOfProducts", [VInt 2]);
     ("HasCrCard", [VInt 1]); ("IsActiveMember", [VInt 1]);
     ("EstimatedSalary", [VFloat 75000%float])].

(** An upload with the ten required columns and no row. *)
Definition empty_table : DataFrame :=
  mkDataFrame 0 (map (fun c => (c, [])) required_cols).

(** A service that answers a batch with no prediction. *)
Definition service_silent : World :=
  mkWorld (get_oracle Scenario.service)
          (fun _ _ => Scenario.ok (VDict [("predictions", VList [])])).

(** A service whose answers, all with status 200, hold one field only. *)
Definition partial : Response :=
  mkResponse 200 "" (inr (VDict [("churn_probability", VFloat 0.25%float)])).

Definition service_partial : World :=
  mkWorld (get_oracle Scenario.service) (fun _ _ => inr partial).

(** The upload of the scenarios with one more column, named as a field of
    the predictions is. *)
Definition table_with_prediction : DataFrame :=
  setitem Scenario.table "prediction" [VInt 0; VInt 1].

(** A page with every button clicked and a file that [pd.read_csv] cannot
    parse. *)
Definition no_columns : exn :=
  Exn "EmptyDataError" "No columns to parse from file".

Definition page_unparsed : Ui :=
  mkUi "http://api" Scenario.customer true (Some (inl no_columns)) true
       0.05%float true.

End Edge.

Import Edge.

Lemma wf_customer_table : wf_df customer_table.
Proof. unfold wf_df. simpl. repeat constructor. Qed.

(** The one-row upload gives the record the form posts for the customer. *)
Lemma batch_record_is_single_payload_witness :
  wf_df customer_table /\
  records (process customer_table) = [VDict (payload customer)].
Proof.
  split; [exact wf_customer_table|].
  assert (Hi : (0 < nrows customer_table)%nat) by (simpl; lia).
  destruct (batch_record_is_single_payload customer_table 0%nat customer
              wf_customer_table eq_refl Hi
              eq_refl eq_refl eq_refl eq_refl eq_refl eq_refl eq_refl eq_refl
              eq_refl) as (Hrec & _).
  rewrite records_map. simpl seq. simpl map. now rewrite Hrec.
Defined.

(** The upload without rows is posted as an empty list. *)
Lemma batch_empty_upload_witness :
  missing_cols (process empty_table) = [] /\
  trace (predict_batch (py := runtime) service_silent "http://api" empty_table)
  = [Post "http://api/predict/batch" (Some (VList []));
     Success "Processed 0 records.";
     Dataframe (mkDataFrame 0 (cols empty_table));
     DownloadButton "Download Results" (mkDataFrame 0 (cols empty_table))
       "predictions.csv" "text/csv"].
Proof.
  split; [reflexivity|].
  destruct (batch_empty_upload (py := runtime) service_silent "http://api"
              empty_table eq_refl eq_refl) as (_ & _ & Hok).
  exact (Hok (mkResponse 200 "" (inr (VDict [("predictions", VList [])])))
             (VDict [("predictions", VList [])])
             eq_refl eq_refl eq_refl eq_refl eq_refl).
Defined.

(** One row uploaded, two predictions returned: two rows are shown, the
    second holds NaN in the nine uploaded columns, and the credit score of
    the first has become a float. *)
Lemma batch_answer_of_other_length_witness :
  labels customer_table = None /\
  missing_cols (process customer_table) = [] /\
  exists final_df,
    trace (predict_batch (py := runtime) service "http://api" customer_table)
    = [Post "http://api/predict/batch"
            (Some (VList (records (process customer_table))));
       Success "Processed 2 records.";
       Dataframe final_df;
       DownloadButton "Download Results" final_df "predictions.csv" "text/csv"]
    /\ nrows final_df = 2%nat
    /\ row final_df 1
       = repeat NaN 9 ++ [VFloat 0.25%float; VInt 0; VStr "Low"]
    /\ cell (getcol final_df "CreditScore") 0 = VFloat 650%float.
Proof.
  split; [reflexivity|]. split; [reflexivity|].
  destruct (batch_answer_of_other_length (py := runtime) service "http://api"
              customer_table
              (mkResponse 200 ""
                 (inr (VDict [("predictions",
                               VList (map VDict [prediction_high;
                                                 prediction_low]))])))
              (VDict [("predictions",
                       VList (map VDict [prediction_high; prediction_low]))])
              [prediction_high; prediction_low]
              eq_refl eq_refl eq_refl eq_refl eq_refl eq_refl eq_refl)
    as (Hrun & Hn & _ & _ & Hpad & Hcast).
  eexists. split; [exact Hrun|]. split; [exact Hn|].
  assert (Hlt : (nrows customer_table
                 < List.length [prediction_high; prediction_low])%nat)
    by (simpl; lia).
  assert (Hi : (nrows customer_table <= 1)%nat) by (simpl; lia).
  split.
  - rewrite (Hpad Hlt wf_customer_table 1%nat Hi). reflexivity.
  - assert (H0 : (0 < nrows customer_table)%nat) by (simpl; lia).
    rewrite (Hcast Hlt wf_customer_table 0%nat "CreditScore" [VInt 650]
               H0 eq_refl).
    reflexivity.
Defined.

(** An answer with the probability only: the sub-header and one metric, then
    the missing field. *)
Lemma predict_answer_lacking_a_field_witness :
  predict (py := runtime) service_partial "http://api" customer
  = ([Post "http://api/predict" (Some (VDict (payload customer)));
      Subheader "Prediction Result";
      Metric "Churn Probability" (VStr "25.00%");
      Error "Request failed: 'prediction'"], inr tt).
Proof.
  destruct (predict_answer_lacking_a_field (py := runtime) service_partial
              "http://api" customer partial eq_refl eq_refl)
    as (_ & _ & Hpred & _).
  exact (Hpred [("churn_probability", VFloat 0.25%float)]
               (VFloat 0.25%float) "25.00%" eq_refl eq_refl eq_refl eq_refl).
Defined.

(** The same answer to a batch: no table. *)
Lemma batch_answer_without_predictions_witness :
  predict_batch (py := runtime) service_partial "http://api" table
  = ([Post "http://api/predict/batch" (Some (VList (records (process table))));
      Error "Batch processing failed: 'predictions'"], inr tt).
Proof.
  destruct (batch_answer_without_predictions (py := runtime) service_partial
              "http://api" table partial table_complete eq_refl eq_refl)
    as (_ & Hkey).
  exact (Hkey [("churn_probability", VFloat 0.25%float)] eq_refl eq_refl).
Defined.

(** Eight features analysed, none drifted. *)
Lemma check_drift_report_witness :
  check_drift (py := runtime) service "http://api" 0.05%float
  = ([Post "http://api/drift/check?threshold=0.05" None;
      Metric "Features Analyzed" (VInt 8);
      Metric "Features with Drift" (VInt 0);
      Success "✅ No Data Drift Detected."], inr tt).
Proof.
  exact (check_drift_report (py := runtime) service "http://api" 0.05%float
           (mkResponse 200 ""
              (inr (VDict [("features_analyzed", VInt 8);
                           ("features_drifted", VInt 0)])))
           [("features_analyzed", VInt 8); ("features_drifted", VInt 0)]
           8 0 eq_refl eq_refl eq_refl eq_refl eq_refl).
Defined.

(** An answer without the counts. *)
Lemma check_drift_answer_lacking_a_count_witness :
  check_drift (py := runtime) service_partial "http://api" 0.05%float
  = ([Post "http://api/drift/check?threshold=0.05" None;
      Error "Drift check failed: 'features_analyzed'"], inr tt).
Proof.
  destruct (check_drift_answer_lacking_a_count (py := runtime) service_partial
              "http://api" 0.05%float partial
              [("churn_probability", VFloat 0.25%float)]
              eq_refl eq_refl eq_refl) as (Hnone & _).
  exact (Hnone eq_refl).
Defined.

Section Display.

Context {py : PyRuntime}.

Lemma eq_one_cases (c : value) :
  eq_one c = true <->
  c = VBool true \/ c = VInt 1 \/
  exists f, c = VFloat f /\ PrimFloat.eqb f 1%float = true.
Proof.
  destruct c as [|b|z|f|s|l|d]; simpl.
  - split; [discriminate | intros [H|[H|[f [H _]]]]; discriminate].
  - split.
    + intros ->. now left.
    + intros [H|[H|[f [H _]]]]; try discriminate. now injection H.
  - rewrite Z.eqb_eq. split.
    + intros ->. right. now left.
    + intros [H|[H|[f [H _]]]]; try discriminate. now injection H.
  - split.
    + intros H. right. right. now exists f.
    + intros [H|[H|[g [H Hg]]]]; try discriminate. injection H as ->.
      exact Hg.
  - split; [discriminate | intros [H|[H|[f [H _]]]]; discriminate].
  - split; [discriminate | intros [H|[H|[f [H _]]]]; discriminate].
  - split; [discriminate | intros [H|[H|[f [H _]]]]; discriminate].
Qed.

(** X14. Single prediction answered 200 with the three fields: the
    sub-header, the probability as formatted, the label, the risk level as
    received and one banner are shown, in this order.  The label is "Churn"
    and the banner the warning exactly when the prediction equals 1 as Python
    compares it (1, 1.0 or True); for every other value, a string or null
    included, the label is "Stay" and the banner the success message. *)
Theorem predict_displays_result (w : World) (url : string) (i : SingleInputs)
    (resp : Response) (d : list (string * value)) (p c : value)
    (s r : string) :
  post_oracle w (url +++ "/predict") (Some (VDict (payload i))) = inr resp ->
  status_code resp = 200 ->
  json resp = inr (VDict d) ->
  lookup "churn_probability" d = Some p -> format_pct p = inr s ->
  lookup "prediction" d = Some c ->
  lookup "risk_level" d = Some (VStr r) ->
  let churn :=
    c = VBool true \/ c = VInt 1 \/
    exists f, c = VFloat f /\ PrimFloat.eqb f 1%float = true in
  (churn ->
   predict w url i
   = ([Post (url +++ "/predict") (Some (VDict (payload i)));
       Subheader "Prediction Result";
       Metric "Churn Probability" (VStr s);
       Metric "Prediction" (VStr "Churn");
       Metric "Risk Level" (VStr r);
       Error "⚠️ This customer is likely to churn."], inr tt)) /\
  (~ churn ->
   predict w url i
   = ([Post (url +++ "/predict") (Some (VDict (payload i)));
       Subheader "Prediction Result";
       Metric "Churn Probability" (VStr s);
       Metric "Prediction" (VStr "Stay");
       Metric "Risk Level" (VStr r);
       Success "✅ This customer is likely to stay."], inr tt)).
Proof.
  intros Hpost Hs Hj H1 Hf H2 H3 churn.
  assert (Hrun : predict w url i
    = ([Post (url +++ "/predict") (Some (VDict (payload i)));
        Subheader "Prediction Result";
        Metric "Churn Probability" (VStr s);
        Metric "Prediction" (VStr (if eq_one c then "Churn" else "Stay"));
        Metric "Risk Level" (VStr r);
        if eq_one c then Error "⚠️ This customer is likely to churn."
        else Success "✅ This customer is likely to stay."], inr tt)).
  { rewrite (predict_200 w url i resp Hpost Hs), Hj.
    unfold show_prediction, getitem.
    cbn. rewrite H1. cbn. rewrite Hf. cbn. rewrite H2. cbn. rewrite H3. cbn.
    destruct (eq_one c); reflexivity. }
  split; intros Hc.
  - apply eq_one_cases in Hc. now rewrite Hrun, Hc.
  - destruct (eq_one c) eqn:E.
    + exfalso. apply Hc. now apply eq_one_cases.
    + exact Hrun.
Qed.

End Display.

(** A prediction sent as the string "1" is shown as "Stay". *)
Lemma predict_displays_result_witness :
  predict (py := runtime)
    (mkWorld (get_oracle service)
       (fun _ _ =>
          ok (VDict [("churn_probability", VFloat 0.8%float);
                     ("prediction", VStr "1"); ("risk_level", VStr "High")])))
    "http://api" customer
  = ([Post "http://api/predict" (Some (VDict (payload customer)));
      Subheader "Prediction Result";
      Metric "Churn Probability" (VStr "80.00%");
      Metric "Prediction" (VStr "Stay");
      Metric "Risk Level" (VStr "High");
      Success "✅ This customer is likely to stay."], inr tt).
Proof.
  destruct (predict_displays_result (py := runtime)
              (mkWorld (get_oracle service)
                 (fun _ _ =>
                    ok (VDict [("churn_probability", VFloat 0.8%float);
                               ("prediction", VStr "1");
                               ("risk_level", VStr "High")])))
              "http://api" customer
              (mkResponse 200 ""
                 (inr (VDict [("churn_probability", VFloat 0.8%float);
                              ("prediction", VStr "1");
                              ("risk_level", VStr "High")])))
              [("churn_probability", VFloat 0.8%float);
               ("prediction", VStr "1"); ("risk_level", VStr "High")]
              (VFloat 0.8%float) (VStr "1") "80.00%" "High"
              eq_refl eq_refl eq_refl eq_refl eq_refl eq_refl eq_refl)
    as (_ & Hstay).
  apply Hstay. intros [H|[H|[f [H _]]]]; discriminate.
Defined.

(** A file that cannot be parsed, every button clicked: the run ends at the
    batch tab, after the prediction, and the drift check is not sent. *)
Lemma upload_read_and_previewed_unguarded_witness :
  app (py := runtime) service page_unparsed
  = ([Title "🏦 Bank Churn Prediction & Monitoring";
      SidebarHeader "Configuration";
      Get "http://api/health"; SidebarSuccess "API Connected ✅";
      Header "Predict Churn for a Single Client";
      Post "http://api/predict" (Some (VDict (payload customer)));
      Subheader "Prediction Result";
      Metric "Churn Probability" (VStr "25.00%");
      Metric "Prediction" (VStr "Stay");
      Metric "Risk Level" (VStr "Low");
      Success "✅ This customer is likely to stay.";
      Header "Batch Prediction via CSV"], inl no_columns).
Proof.
  destruct (upload_read_and_previewed_unguarded (py := runtime) service
              page_unparsed) as (Hraise & _).
  destruct (Hraise no_columns eq_refl) as (_ & Hrun).
  rewrite Hrun. reflexivity.
Defined.

(** C2 as the specification words it fails: for an upload with a column
    named "prediction" and an answer of as many predictions as rows, the
    combined table has that name twice, [st.dataframe] raises on it inside
    the [try], and no table and no download is shown. *)
Lemma batch_duplicate_column_shows_no_table :
  labels table_with_prediction = None /\
  nrows table_with_prediction = 2%nat /\
  missing_cols (process table_with_prediction) = [] /\
  post_oracle service "http://api/predict/batch"
    (Some (VList (records (process table_with_prediction))))
  = ok (VDict [("predictions",
                VList (map VDict [prediction_high; prediction_low]))]) /\
  predict_batch (py := runtime) service "http://api" table_with_prediction
  = ([Post "http://api/predict/batch"
           (Some (VList (records (process table_with_prediction))));
      Success "Processed 2 records.";
      Error "Batch processing failed: Duplicate column names found: ['Surname', 'CreditScore', 'Geography', 'Age', 'Tenure', 'Balance', 'NumOfProducts', 'HasCrCard', 'IsActiveMember', 'EstimatedSalary', 'prediction', 'churn_probability', 'prediction', 'risk_level']"],
     inr tt) /\
  (forall final_df,
     ~ In (Dataframe final_df)
          (trace (predict_batch (py := runtime) service "http://api"
                    table_with_prediction))).
Proof.
  split; [reflexivity|]. split; [reflexivity|]. split; [reflexivity|].
  split; [reflexivity|]. split; [reflexivity|].
  intros final_df. simpl. intuition discriminate.
Qed.


(** C10 as the specification words it fails: one row uploaded and two
    predictions returned; the table shown has the credit score as the float
    650.0 followed by NaN where the upload had the integer 650. *)
Lemma batch_longer_answer_changes_uploaded_columns :
  getcol customer_table "CreditScore" = [VInt 650] /\
  exists final_df,
    trace (predict_batch (py := runtime) service "http://api" customer_table)
    = [Post "http://api/predict/batch"
            (Some (VList (records (process customer_table))));
       Success "Processed 2 records.";
       Dataframe final_df;
       DownloadButton "Download Results" final_df "predictions.csv" "text/csv"]
    /\ getcol final_df "CreditScore" = [VFloat 650%float; NaN]
    /\ getcol final_df "CreditScore" <> getcol customer_table "CreditScore".
Proof.
  split; [reflexivity|].
  eexists. split; [reflexivity|]. split; [reflexivity|].
  simpl. discriminate.
Qed.
